(** * batchflow: residual-block layout resolution, the ResNet/ResNeXt
      configuration chain and the DropBlock layer

    Shallow embedding of
    - [batchflow/models/eager_torch/resnet.py] ([ResBlock.__init__] and the
      [default_config] class methods), and
    - [batchflow/models/tf/layers/drop_block.py] ([dropblock], [_dropblock]),
    followed by the properties established about them. *)

From Stdlib Require Import ZArith QArith List String Ascii Lia.
From Stdlib Require SpecFloat.
From stdpp Require Import gmap strings.
Import ListNotations.
Local Open Scope Z_scope.

(** ** Python exceptions as values *)

Module Py.

Inductive exn :=
| IndexError
| ValueError (msg : string)
| EvalError.

Inductive result (A : Type) :=
| Ok (a : A)
| Raise (e : exn).
Arguments Ok {A} a.
Arguments Raise {A} e.

Definition bind {A B : Type} (r : result A) (k : A -> result B) : result B :=
  match r with
  | Ok a => k a
  | Raise e => Raise e
  end.


End Py.
Export Py.

Notation "'let!' x ':=' r 'in' k" := (Py.bind r (fun x => k))
  (at level 10, x name, r at level 100, k at level 200).

(** ** resnet.py *)

(** [CONV_LETTERS = ['c', 'C', 'w', 'W', 't', 'T']] *)
Definition CONV_LETTERS : list ascii :=
  ["c"; "C"; "w"; "W"; "t"; "T"]%char.

(** [letter in CONV_LETTERS] *)
Definition letter_in (letter : ascii) (letters : list ascii) : bool :=
  existsb (Ascii.eqb letter) letters.

(** [sum([letter in CONV_LETTERS for letter in layout])] *)
Definition num_convs (layout : string) : nat :=
  list_sum (map (fun letter => Nat.b2n (letter_in letter CONV_LETTERS))
                (list_ascii_of_string layout)).

(** A parameter that is either one [int] or a list of them
    ([isinstance(x, int)] decides which). *)
Inductive int_or_list :=
| PInt (z : Z)
| PList (l : list Z).

(** [filters] may also be a string handed to [eval]. *)
Inductive filters_t :=
| FiltersStr (expr : string)
| FiltersVal (v : int_or_list).

(** [downsample] and [bottleneck]: a [bool] or an explicit integer factor. *)
Inductive flag_t :=
| FlagBool (b : bool)
| FlagInt (z : Z).

(** What the module imports from outside the file: the input tensors with
    [get_num_channels] (from [.utils]) and Python's [eval] on a filters
    expression in which [S] and [same] are both bound to the channel count.
    [py_eval] covers the evaluations that raise and those whose value is an
    int or a list of ints; an expression whose value is of another type (a
    float such as ['same/2'], a tuple) has no counterpart here, so nothing
    below speaks about how [__init__] fails after [eval] has returned. *)
Class Host := {
  tensor_t : Type;
  get_num_channels : tensor_t -> Z;
  py_eval : string -> Z -> result int_or_list
}.

(** Truth value of a flag in [if downsample:] / [if bottleneck:]. *)
Definition truthy (f : flag_t) : bool :=
  match f with
  | FlagBool b => b
  | FlagInt z => negb (z =? 0)
  end.

(** [dflt if flag is True else flag], as a number ([False] counts as 0). *)
Definition factor (dflt : Z) (f : flag_t) : Z :=
  match f with
  | FlagBool true => dflt
  | FlagBool false => 0
  | FlagInt z => z
  end.

(** [[x] * n if isinstance(x, int) else x] *)
Definition broadcast (x : int_or_list) (n : nat) : list Z :=
  match x with
  | PInt z => repeat z n
  | PList l => l
  end.

(** numpy multiplies a list of Python ints in int64, wrapping silently. *)
Definition wrap_int64 (z : Z) : Z :=
  (z + 2 ^ 63) mod 2 ^ 64 - 2 ^ 63.

(** [np.prod(strides)]; on the empty list numpy answers [1.0], which the
    model keeps as [1]. *)
Definition np_prod (l : list Z) : Z :=
  wrap_int64 (fold_right Z.mul 1 l).

Module ResBlock.

(** Keyword arguments of [ResBlock.__init__]. *)
Record kwargs `{Host} := {
  inputs : tensor_t;
  layout : string;
  filters : filters_t;
  kernel_size : int_or_list;
  strides : int_or_list;
  downsample : flag_t;
  bottleneck : flag_t;
  groups : int_or_list;
  op : string;
  n_reps : Z
}.

(** The signature's defaults:
    [layout='cnacna', filters='same', kernel_size=3, strides=1,
     downsample=False, bottleneck=False, groups=1, op='+', n_reps=1]. *)
Definition defaults `{Host} (x : tensor_t) : kwargs := {|
  inputs := x;
  layout := "cnacna";
  filters := FiltersStr "same";
  kernel_size := PInt 3;
  strides := PInt 1;
  downsample := FlagBool false;
  bottleneck := FlagBool false;
  groups := PInt 1;
  op := "+";
  n_reps := 1
|}.

(** The local variables of [__init__] that the body keeps rebinding. *)
Record locals := {
  l_layout : string;
  l_filters : list Z;
  l_kernel_size : list Z;
  l_strides : list Z;
  l_strides_d : list Z;
  l_groups : list int_or_list;
  l_side_branch_stride : Z;
  l_side_branch_stride_d : Z
}.

(** Lines 33-34: a string is evaluated with [S] and [same] bound to the
    number of input channels. *)
Definition eval_filters `{Host} (a : kwargs) : result int_or_list :=
  match filters a with
  | FiltersStr expr => py_eval expr (get_num_channels (inputs a))
  | FiltersVal v => Ok v
  end.

(** Lines 31-42: per-convolution lists. [groups] is wrapped without an
    [isinstance] test. *)
Definition resolve `{Host} (a : kwargs) : result locals :=
  let n := num_convs (layout a) in
  let! f := eval_filters a in
  let strides_l := broadcast (strides a) n in
  Ok {| l_layout := layout a;
        l_filters := broadcast f n;
        l_kernel_size := broadcast (kernel_size a) n;
        l_strides := strides_l;
        l_strides_d := strides_l;
        l_groups := repeat (groups a) n;
        l_side_branch_stride := np_prod strides_l;
        l_side_branch_stride_d := np_prod strides_l |}.

(** Lines 44-47: [strides_d[0] *= downsample] raises on an empty list. *)
Definition apply_downsample (flag : flag_t) (st : locals) : result locals :=
  if truthy flag then
    let d := factor 2 flag in
    match l_strides_d st with
    | [] => Raise IndexError
    | s0 :: rest =>
        Ok {| l_layout := l_layout st;
              l_filters := l_filters st;
              l_kernel_size := l_kernel_size st;
              l_strides := l_strides st;
              l_strides_d := s0 * d :: rest;
              l_groups := l_groups st;
              l_side_branch_stride := l_side_branch_stride st;
              l_side_branch_stride_d := l_side_branch_stride_d st * d |}
    end
  else Ok st.

(** Lines 48-55: the 1x1 convolutions around the block. *)
Definition apply_bottleneck (flag : flag_t) (st : locals) : result locals :=
  if truthy flag then
    let k := factor 4 flag in
    match l_filters st with
    | [] => Raise IndexError
    | f0 :: _ =>
        Ok {| l_layout := "cna" ++ l_layout st ++ "cna";
              l_filters := [f0] ++ l_filters st ++ [f0 * k];
              l_kernel_size := [1] ++ l_kernel_size st ++ [1];
              l_strides := [1] ++ l_strides st ++ [1];
              l_strides_d := [1] ++ l_strides_d st ++ [1];
              l_groups := [PInt 1] ++ l_groups st ++ [PInt 1];
              l_side_branch_stride := l_side_branch_stride st;
              l_side_branch_stride_d := l_side_branch_stride_d st |}
    end
  else Ok st.

(** One positional dictionary of the [ConvBlock] call: [{}] or
    [{'strides': ..., 'side_branch/strides': ...}]. *)
Record layer_param := {
  lp_strides : option (list Z);
  lp_side_branch_strides : option Z
}.

Definition empty_param : layer_param :=
  {| lp_strides := None; lp_side_branch_strides := None |}.

(** [side_branch={'layout': 'c', 'filters': ..., 'strides': ...}] *)
Record side_branch_t := {
  sb_layout : string;
  sb_filters : Z;
  sb_strides : Z
}.

(** The arguments [ConvBlock] is called with (lines 58-62). *)
Record ConvBlock_call `{Host} := {
  cb_layer_params : list layer_param;
  cb_inputs : tensor_t;
  cb_layout : string;
  cb_filters : list Z;
  cb_kernel_size : list Z;
  cb_strides : list Z;
  cb_groups : list int_or_list;
  cb_side_branch : side_branch_t
}.

(** Lines 56-62; [filters[-1]] raises on an empty list. *)
Definition call_ConvBlock `{Host} (a : kwargs) (st : locals) : result ConvBlock_call :=
  match l_filters st with
  | [] => Raise IndexError
  | f0 :: fs =>
      Ok {| cb_layer_params :=
              [{| lp_strides := Some (l_strides_d st);
                  lp_side_branch_strides := Some (l_side_branch_stride_d st) |}]
              ++ repeat empty_param (Z.to_nat (n_reps a - 1));
            cb_inputs := inputs a;
            cb_layout := "B" ++ l_layout st ++ op a;
            cb_filters := l_filters st;
            cb_kernel_size := l_kernel_size st;
            cb_strides := l_strides st;
            cb_groups := l_groups st;
            cb_side_branch := {| sb_layout := "c";
                                 sb_filters := List.last fs f0;
                                 sb_strides := l_side_branch_stride st |} |}
  end.

(** The locals as they stand after line 55. *)
Definition expanded `{Host} (a : kwargs) : result locals :=
  let! st := resolve a in
  let! st := apply_downsample (downsample a) st in
  apply_bottleneck (bottleneck a) st.

Definition __init__ `{Host} (a : kwargs) : result ConvBlock_call :=
  let! st := expanded a in
  call_ConvBlock a st.

(** Modelled from the spec: [ConvBlock] (from [.layers]) builds one
    repetition per positional dictionary, and a key present in that
    dictionary replaces the keyword argument of the same name; these two
    functions give what repetition [i] is built with; this one its
    strides. *)
Definition rep_strides `{Host} (c : ConvBlock_call) (i : nat) : option (list Z) :=
  match nth_error (cb_layer_params c) i with
  | Some p => Some (match lp_strides p with Some s => s | None => cb_strides c end)
  | None => None
  end.

(** Modelled from the spec: the side-branch stride of repetition [i], by
    the same rule. *)
Definition rep_side_branch_strides `{Host} (c : ConvBlock_call) (i : nat) : option Z :=
  match nth_error (cb_layer_params c) i with
  | Some p => Some (match lp_side_branch_strides p with
                    | Some s => s
                    | None => sb_strides (cb_side_branch c)
                    end)
  | None => None
  end.

(** A per-convolution list as lines 50-52 leave it: between two [1]s when
    the bottleneck is on, untouched otherwise. *)
Definition around (flag : flag_t) (l : list Z) : list Z :=
  if truthy flag then [1] ++ l ++ [1] else l.

(** A scalar fits any layout; a list fits when it has one entry per
    convolution. *)
Definition fits (x : int_or_list) (n : nat) : bool :=
  match x with
  | PInt _ => true
  | PList l => (length l =? n)%nat
  end.

(** The block of one ResNet50 stage as the registry configures it:
    [layout='cna'], [bottleneck=True], one filter count per stage, with the
    remaining arguments at the signature's defaults. *)
Definition stage_block `{Host} (x : tensor_t) (f : Z) (down : flag_t)
    (g : int_or_list) (reps : Z) : kwargs := {|
  inputs := x;
  layout := "cna";
  filters := FiltersVal (PInt f);
  kernel_size := PInt 3;
  strides := PInt 1;
  downsample := down;
  bottleneck := FlagBool true;
  groups := g;
  op := "+";
  n_reps := reps
|}.

End ResBlock.

(** A host in which a tensor is known by its channel count and [eval]
    understands the two bare names [same] and [S]. *)
Definition channel_host : Host := {|
  tensor_t := Z;
  get_num_channels := fun c => c;
  py_eval := fun expr nc =>
    if (String.eqb expr "same" || String.eqb expr "S")%bool
    then Ok (PInt nc) else Raise EvalError
|}.

(** Blocks used as concrete inputs below, all over [channel_host]. *)

(** [ResBlock(inputs, filters=[64, 128], bottleneck=True)] on a 32-channel input. *)
Definition two_filter_bottleneck : @ResBlock.kwargs channel_host := {|
  ResBlock.inputs := (32 : @tensor_t channel_host);
  ResBlock.layout := "cnacna";
  ResBlock.filters := FiltersVal (PList [64; 128]);
  ResBlock.kernel_size := PInt 3;
  ResBlock.strides := PInt 1;
  ResBlock.downsample := FlagBool false;
  ResBlock.bottleneck := FlagBool true;
  ResBlock.groups := PInt 1;
  ResBlock.op := "+";
  ResBlock.n_reps := 1
|}.

(** [ResBlock(inputs, filters=[64])]: one filter for the two convolutions
    of the default layout. *)
Definition short_filters_block : @ResBlock.kwargs channel_host := {|
  ResBlock.inputs := (64 : @tensor_t channel_host);
  ResBlock.layout := "cnacna";
  ResBlock.filters := FiltersVal (PList [64]);
  ResBlock.kernel_size := PInt 3;
  ResBlock.strides := PInt 1;
  ResBlock.downsample := FlagBool false;
  ResBlock.bottleneck := FlagBool false;
  ResBlock.groups := PInt 1;
  ResBlock.op := "+";
  ResBlock.n_reps := 1
|}.

(** [ResBlock(inputs, filters=64, downsample=True, bottleneck=True, n_reps=3)] *)
Definition downsampled_stage : @ResBlock.kwargs channel_host := {|
  ResBlock.inputs := (64 : @tensor_t channel_host);
  ResBlock.layout := "cnacna";
  ResBlock.filters := FiltersVal (PInt 64);
  ResBlock.kernel_size := PInt 3;
  ResBlock.strides := PInt 1;
  ResBlock.downsample := FlagBool true;
  ResBlock.bottleneck := FlagBool true;
  ResBlock.groups := PInt 32;
  ResBlock.op := "+";
  ResBlock.n_reps := 3
|}.

(** [ResBlock(inputs, groups=[2, 4])]: one group count per convolution. *)
Definition grouped_block : @ResBlock.kwargs channel_host := {|
  ResBlock.inputs := (64 : @tensor_t channel_host);
  ResBlock.layout := "cnacna";
  ResBlock.filters := FiltersStr "same";
  ResBlock.kernel_size := PInt 3;
  ResBlock.strides := PInt 1;
  ResBlock.downsample := FlagBool false;
  ResBlock.bottleneck := FlagBool false;
  ResBlock.groups := PList [2; 4];
  ResBlock.op := "+";
  ResBlock.n_reps := 1
|}.

(** [ResBlock(inputs, filters=64)], then with [bottleneck=True], then with
    [downsample=True], each on a 64-channel input. *)
Definition plain_block : @ResBlock.kwargs channel_host := {|
  ResBlock.inputs := (64 : @tensor_t channel_host);
  ResBlock.layout := "cnacna";
  ResBlock.filters := FiltersVal (PInt 64);
  ResBlock.kernel_size := PInt 3;
  ResBlock.strides := PInt 1;
  ResBlock.downsample := FlagBool false;
  ResBlock.bottleneck := FlagBool false;
  ResBlock.groups := PInt 1;
  ResBlock.op := "+";
  ResBlock.n_reps := 1
|}.

Definition bottleneck_block : @ResBlock.kwargs channel_host := {|
  ResBlock.inputs := (64 : @tensor_t channel_host);
  ResBlock.layout := "cnacna";
  ResBlock.filters := FiltersVal (PInt 64);
  ResBlock.kernel_size := PInt 3;
  ResBlock.strides := PInt 1;
  ResBlock.downsample := FlagBool false;
  ResBlock.bottleneck := FlagBool true;
  ResBlock.groups := PInt 1;
  ResBlock.op := "+";
  ResBlock.n_reps := 1
|}.

Definition downsample_block : @ResBlock.kwargs channel_host := {|
  ResBlock.inputs := (64 : @tensor_t channel_host);
  ResBlock.layout := "cnacna";
  ResBlock.filters := FiltersVal (PInt 64);
  ResBlock.kernel_size := PInt 3;
  ResBlock.strides := PList [1; 1];
  ResBlock.downsample := FlagBool true;
  ResBlock.bottleneck := FlagBool false;
  ResBlock.groups := PInt 1;
  ResBlock.op := "+";
  ResBlock.n_reps := 1
|}.

(** [ResBlock(inputs, layout='na', filters=64)]: a layout without any
    convolution. *)
Definition norm_only_block : @ResBlock.kwargs channel_host := {|
  ResBlock.inputs := (64 : @tensor_t channel_host);
  ResBlock.layout := "na";
  ResBlock.filters := FiltersVal (PInt 64);
  ResBlock.kernel_size := PInt 3;
  ResBlock.strides := PInt 1;
  ResBlock.downsample := FlagBool false;
  ResBlock.bottleneck := FlagBool false;
  ResBlock.groups := PInt 1;
  ResBlock.op := "+";
  ResBlock.n_reps := 1
|}.

(** [ResBlock(inputs, filters=64, strides=[2, 1], n_reps=0)] *)
Definition zero_reps_block : @ResBlock.kwargs channel_host := {|
  ResBlock.inputs := (64 : @tensor_t channel_host);
  ResBlock.layout := "cnacna";
  ResBlock.filters := FiltersVal (PInt 64);
  ResBlock.kernel_size := PInt 3;
  ResBlock.strides := PList [2; 1];
  ResBlock.downsample := FlagBool false;
  ResBlock.bottleneck := FlagBool false;
  ResBlock.groups := PInt 1;
  ResBlock.op := "+";
  ResBlock.n_reps := 0
|}.

(** ** Configurations *)

(** Values stored under a configuration key. *)
#[warnings="-register-all"]
Inductive pyval :=
| VNone
| VBool (b : bool)
| VInt (z : Z)
| VFloat (q : Q)
| VStr (s : string)
| VList (l : list pyval)
| VClass (name : string).

Module Config.

(** Modelled from the spec: [batchflow.Config] is not among the sources; the
    spec describes it as a hierarchical key-path configuration in which a
    subclass overrides specific leaf paths, last writer wins per leaf path.
    It is kept as a finite map from leaf path to value. *)
Abbreviation t := (gmap string pyval).

(** Modelled from the spec: [config[path] = v]. *)
Definition set (path : string) (v : pyval) (config : t) : t :=
  <[path := v]> config.

(** Modelled from the spec: [config[path] += dict(k1=v1, ...)] writes each
    [path/k] in the order the keywords are given. What [Config] does when
    nothing is stored under [path] yet is not described and not modelled. *)
Definition iadd (path : string) (d : list (string * pyval)) (config : t) : t :=
  fold_left (fun acc kv => set (path ++ "/" ++ fst kv) (snd kv) acc) d config.

(** Modelled from the spec: reading a leaf path. *)
Definition get (path : string) (config : t) : option pyval :=
  config !! path.

(** Modelled from the spec: a key path is a sequence of names separated by
    ['/']; [segments_ok] checks that no name is empty, [at_start] telling
    that a name is about to begin. *)
Fixpoint segments_ok (at_start : bool) (path : string) : bool :=
  match path with
  | EmptyString => negb at_start
  | String c rest =>
      if Ascii.eqb c "/"
      then negb at_start && segments_ok true rest
      else segments_ok false rest
  end.

Definition well_formed (path : string) : bool := segments_ok true path.

(** Modelled from the spec: in the hierarchy of key paths, two paths
    overlap when they are the same path or one is a node above the other
    (['head'] is above ['head/layout']). *)
Definition overlap (p q : string) : bool :=
  String.eqb p q
  || String.prefix (p ++ "/") q
  || String.prefix (q ++ "/") p.

End Config.

(** Every class method below takes the result of [Encoder.default_config()]
    (module [.encoder_decoder], outside these sources) as [encoder_config];
    [super().default_config()] is the parent module's function. *)

Module ResNet.

Definition default_config (encoder_config : Config.t) : Config.t :=
  let config := encoder_config in
  let config := Config.set "common/conv/bias" (VBool false) config in
  let config := Config.iadd "initial_block"
                  [("layout", VStr "cnap"); ("filters", VInt 64);
                   ("kernel_size", VInt 7); ("strides", VInt 2);
                   ("pool_size", VInt 3); ("pool_strides", VInt 2)] config in
  let config := Config.set "body/encoder/num_stages" (VInt 4) config in
  let config := Config.set "body/encoder/order" (VList [VStr "block"]) config in
  let config := Config.iadd "body/encoder/blocks"
                  [("base", VClass "ResBlock"); ("layout", VStr "cnacna");
                   ("filters", VList [VInt 64; VInt 128; VInt 256; VInt 512]);
                   ("n_reps", VList [VInt 1; VInt 1; VInt 1; VInt 1]);
                   ("downsample",
                    VList [VBool false; VBool true; VBool true; VBool true]);
                   ("bottleneck", VBool false)] config in
  let config := Config.iadd "head"
                  [("layout", VStr "Vdf"); ("dropout_rate", VFloat (4 # 10))]
                  config in
  let config := Config.set "loss" (VStr "ce") config in
  config.

(** [config.get(path) is None]: nothing stored, or [None] stored. *)
Definition is_none (path : string) (config : Config.t) : bool :=
  match Config.get path config with
  | None | Some VNone => true
  | Some _ => false
  end.

(** [build_config] (lines 97-104); [super_config] is the result of
    [super().build_config()] and [classes] the value of [self.classes],
    both from outside these sources. *)
Definition build_config (super_config : Config.t) (classes : pyval) : Config.t :=
  let config := super_config in
  let config :=
    if is_none "head/units" config
    then Config.set "head/units" classes config else config in
  let config :=
    if is_none "head/filters" config
    then Config.set "head/filters" classes config else config in
  config.

(** The leaf paths that [default_config] writes. The nodes
    ['initial_block'], ['body/encoder/blocks'] and ['head'], which lines 80,
    85 and 91 read and assign with [+=], are not leaves and not in the
    list: in the flat map a node has no entry of its own, and reading a
    node is not modelled. *)
Definition written_paths : list string :=
  ["common/conv/bias";
   "initial_block/layout"; "initial_block/filters";
   "initial_block/kernel_size"; "initial_block/strides";
   "initial_block/pool_size"; "initial_block/pool_strides";
   "body/encoder/num_stages"; "body/encoder/order";
   "body/encoder/blocks/base"; "body/encoder/blocks/layout";
   "body/encoder/blocks/filters"; "body/encoder/blocks/n_reps";
   "body/encoder/blocks/downsample"; "body/encoder/blocks/bottleneck";
   "head/layout"; "head/dropout_rate"; "loss"].

(** The one leaf path that only the ResNeXt classes write. *)
Definition groups_path : string := "body/encoder/blocks/groups".

(** A well-formed path that overlaps none of the leaf paths written by a
    class of the registry: not one of them, no node above one, nothing
    below one. *)
Definition untouched (path : string) : bool :=
  Config.well_formed path
  && forallb (fun w => negb (Config.overlap path w))
             (written_paths ++ [groups_path]).

End ResNet.

Module ResNet18.

Definition default_config (encoder_config : Config.t) : Config.t :=
  let config := ResNet.default_config encoder_config in
  Config.set "body/encoder/blocks/n_reps"
             (VList [VInt 2; VInt 2; VInt 2; VInt 2]) config.

End ResNet18.

Module ResNet34.

Definition default_config (encoder_config : Config.t) : Config.t :=
  let config := ResNet.default_config encoder_config in
  Config.set "body/encoder/blocks/n_reps"
             (VList [VInt 3; VInt 4; VInt 6; VInt 3]) config.

End ResNet34.

Module ResNet50.

Definition default_config (encoder_config : Config.t) : Config.t :=
  let config := ResNet34.default_config encoder_config in
  let config := Config.set "body/encoder/blocks/layout" (VStr "cna") config in
  let config := Config.set "body/encoder/blocks/bottleneck" (VBool true) config in
  config.

End ResNet50.

Module ResNet101.

Definition default_config (encoder_config : Config.t) : Config.t :=
  let config := ResNet50.default_config encoder_config in
  Config.set "body/encoder/blocks/n_reps"
             (VList [VInt 3; VInt 4; VInt 23; VInt 3]) config.

End ResNet101.

Module ResNet152.

Definition default_config (encoder_config : Config.t) : Config.t :=
  let config := ResNet50.default_config encoder_config in
  Config.set "body/encoder/blocks/n_reps"
             (VList [VInt 3; VInt 8; VInt 36; VInt 3]) config.

End ResNet152.

Module ResNeXt18.

Definition default_config (encoder_config : Config.t) : Config.t :=
  let config := ResNet18.default_config encoder_config in
  Config.set "body/encoder/blocks/groups" (VInt 32) config.

End ResNeXt18.

Module ResNeXt34.

Definition default_config (encoder_config : Config.t) : Config.t :=
  let config := ResNet34.default_config encoder_config in
  Config.set "body/encoder/blocks/groups" (VInt 32) config.

End ResNeXt34.

Module ResNeXt50.

Definition default_config (encoder_config : Config.t) : Config.t :=
  let config := ResNet50.default_config encoder_config in
  Config.set "body/encoder/blocks/groups" (VInt 32) config.

End ResNeXt50.

Module ResNeXt101.

Definition default_config (encoder_config : Config.t) : Config.t :=
  let config := ResNet101.default_config encoder_config in
  Config.set "body/encoder/blocks/groups" (VInt 32) config.

End ResNeXt101.

Module ResNeXt152.

Definition default_config (encoder_config : Config.t) : Config.t :=
  let config := ResNet152.default_config encoder_config in
  Config.set "body/encoder/blocks/groups" (VInt 32) config.

End ResNeXt152.

(** ** drop_block.py *)

Module DropBlock.

(** float32 values, idealised: exact rationals, and one further value for
    whatever is not a finite number (inf, -inf, nan). Dividing by zero
    raises no error in TensorFlow; it yields such a value. The operations
    below do not round. What is stated with them is either the order of
    the operations of the source or a fact about values that float32
    holds exactly (0 and 1 of a mask, a sum that is 0); rounding as
    TensorFlow performs it is [binary32] further down. *)
Inductive float32 :=
| Finite (q : Q)
| NonFinite.

Definition fadd (a b : float32) : float32 :=
  match a, b with
  | Finite x, Finite y => Finite (x + y)
  | _, _ => NonFinite
  end.

Definition fsub (a b : float32) : float32 :=
  match a, b with
  | Finite x, Finite y => Finite (x - y)
  | _, _ => NonFinite
  end.

Definition fmul (a b : float32) : float32 :=
  match a, b with
  | Finite x, Finite y => Finite (x * y)
  | _, _ => NonFinite
  end.

Definition fdiv (a b : float32) : float32 :=
  match a, b with
  | Finite x, Finite y => if Qeq_bool y 0 then NonFinite else Finite (x / y)
  | _, _ => NonFinite
  end.

Definition fmax (a b : float32) : float32 :=
  match a, b with
  | Finite x, Finite y => Finite (if Qle_bool x y then y else x)
  | _, _ => NonFinite
  end.

(** [tf.equal] on scalars. *)
Definition feqb (a b : float32) : bool :=
  match a, b with
  | Finite x, Finite y => Qeq_bool x y
  | _, _ => false
  end.

(** Equality of float32 values up to the representation of the rational. *)
Definition feq (a b : float32) : Prop :=
  match a, b with
  | Finite x, Finite y => Qeq x y
  | NonFinite, NonFinite => True
  | _, _ => False
  end.

(** [tf.cast(_, dtype=tf.float32)] of an integer. *)
Definition to_float (z : Z) : float32 := Finite (inject_Z z).

(** [tf.math.reduce_prod] of a vector. *)
Definition reduce_prod (l : list float32) : float32 :=
  fold_right fmul (Finite 1) l.

(** A float tensor: its shape and its element at each index. Integer
    vectors (shapes, block sizes, paddings) are plain lists. *)
Record tensor := {
  shape : list Z;
  at_ : list Z -> float32
}.

(** All indices of a tensor of the given shape, in row-major order. *)
Fixpoint indices (sh : list Z) : list (list Z) :=
  match sh with
  | [] => [[]]
  | d :: rest =>
      flat_map (fun i => map (cons i) (indices rest))
               (map Z.of_nat (seq 0 (Z.to_nat d)))
  end.

Definition in_bounds (sh idx : list Z) : bool :=
  (length sh =? length idx)%nat
  && forallb (fun p => (0 <=? snd p) && (snd p <? fst p)) (combine sh idx).

(** [tf.size] *)
Definition tf_size (t : tensor) : Z := fold_right Z.mul 1 (shape t).

(** [tf.reduce_sum] over all elements. *)
Definition reduce_sum (t : tensor) : float32 :=
  fold_right fadd (Finite 0) (map (at_ t) (indices (shape t))).

(** [tf.pad(t, paddings)] with zeros. *)
Definition tf_pad (t : tensor) (paddings : list (Z * Z)) : tensor :=
  {| shape := zip_with (fun d p => fst p + d + snd p) (shape t) paddings;
     at_ := fun idx =>
       let src := zip_with (fun i p => i - fst p) idx paddings in
       if in_bounds (shape t) src then at_ t src else Finite 0 |}.

(** The tests on [data_format] compare with ['channels_first'] only. *)
Definition channels_first (data_format : string) : bool :=
  String.eqb data_format "channels_first".

(** Modelled from the spec: for [max_pooling], which is not among the
    sources, the window and stride per tensor dimension; 1 and 1 for batch
    and channels. *)
Definition pool_windows (pool_size strides : list Z) (data_format : string)
  : list (Z * Z) :=
  if channels_first data_format
  then [(1, 1); (1, 1)] ++ combine pool_size strides
  else [(1, 1)] ++ combine pool_size strides ++ [(1, 1)].

(** Modelled from the spec: for [max_pooling], the output extent
    [ceil(d / s)] under 'same' padding. *)
Definition pool_out (d : Z) (w : Z * Z) : Z := (d + snd w - 1) / snd w.

(** Modelled from the spec: for [max_pooling], the padding in front under
    'same' padding, half of what is needed, rounded down. *)
Definition pool_pad_before (d : Z) (w : Z * Z) : Z :=
  Z.max ((pool_out d w - 1) * snd w + fst w - d) 0 / 2.

(** Modelled from the spec: for [max_pooling], the maximum of a window; 0
    for a window without any position (a pool size below 1). *)
Definition fmax_list (l : list float32) : float32 :=
  match l with
  | [] => Finite 0
  | x :: rest => fold_left fmax rest x
  end.

(** Modelled from the spec: [max_pooling] (module [.pooling]) is not among
    the sources; the spec gives a max-pooling with window [pool_size], the
    given strides and 'same' padding. Per dimension the window of output [o]
    starts at [o * s - pad_before], and positions outside the input are
    skipped. The function gives the pooled tensor for the calls the spec
    describes: a window of at least 1 per dimension and one of the two data
    formats. It is total only because a Rocq function has to be; which
    calls the real [max_pooling] rejects (a window below 1, an unknown
    [data_format]) is not known from these sources, and nothing below
    states that such a call succeeds. *)
Definition max_pooling (t : tensor) (pool_size strides : list Z)
    (data_format : string) : tensor :=
  let w := pool_windows pool_size strides data_format in
  let starts idx :=
    zip_with (fun o dw => o * snd (snd dw) - pool_pad_before (fst dw) (snd dw))
             idx (combine (shape t) w) in
  {| shape := zip_with pool_out (shape t) w;
     at_ := fun idx =>
       let cands := map (zip_with Z.add (starts idx)) (indices (map fst w)) in
       fmax_list (map (at_ t) (filter (in_bounds (shape t)) cands)) |}.

(** [1 - mask] *)
Definition one_minus (t : tensor) : tensor :=
  {| shape := shape t; at_ := fun idx => fsub (Finite 1) (at_ t idx) |}.

(** [tf.multiply] with broadcasting of dimensions of extent 1. *)
Definition bcast_index (sh idx : list Z) : list Z :=
  zip_with (fun d i => if d =? 1 then 0 else i) sh idx.

Definition tf_multiply (a b : tensor) : tensor :=
  {| shape := zip_with Z.max (shape a) (shape b);
     at_ := fun idx => fmul (at_ a (bcast_index (shape a) idx))
                            (at_ b (bcast_index (shape b) idx)) |}.

(** [t * num / den] with scalars [num] and [den]. *)
Definition rescale (t : tensor) (num den : float32) : tensor :=
  {| shape := shape t; at_ := fun idx => fdiv (fmul (at_ t idx) num) den |}.

(** *** Sampling as an effect *)

(** One call of [noise_dist.sample]. *)
Record draw := {
  d_probs : float32;
  d_shape : list Z;
  d_seed : option Z
}.

(** Run-time computations: they extend the log of draws made so far. *)
Definition M (A : Type) : Type := list draw -> A * list draw.

Definition ret {A : Type} (a : A) : M A := fun log => (a, log).

Definition bindM {A B : Type} (m : M A) (k : A -> M B) : M B :=
  fun log => let (a, log') := m log in k a log'.

(** [tf.distributions.Bernoulli(probs).sample(shape, seed)]: the outcome is
    given by [noise], the element drawn at each index. *)
Definition sample (noise : list Z -> float32) (probs : float32)
    (sh : list Z) (seed : option Z) : M tensor :=
  fun log => ({| shape := sh; at_ := noise |},
              log ++ [{| d_probs := probs; d_shape := sh; d_seed := seed |}]).

(** *** [_dropblock] *)

(** The [block_size] argument by Python type. *)
Inductive block_size_t :=
| BSInt (n : Z)
| BSTuple (t : list Z)
| BSFloat (q : Q)
| BSList (l : list Z)
| BSNone.

(** [isinstance(block_size, int)] and [isinstance(block_size, tuple)] *)
Definition is_int (block_size : block_size_t) : bool :=
  match block_size with BSInt _ => true | _ => false end.

Definition is_tuple (block_size : block_size_t) : bool :=
  match block_size with BSTuple _ => true | _ => false end.

(** Lines 52-56. *)
Definition spatial_dims (input_shape : list Z) (data_format : string) : list Z :=
  if channels_first data_format
  then skipn 2 input_shape
  else removelast (skipn 1 input_shape).

Definition channels (input_shape : list Z) (data_format : string) : list Z :=
  if channels_first data_format
  then firstn 1 (skipn 1 input_shape)
  else skipn (length input_shape - 1) input_shape.

(** Lines 58-66: the Python list that [block_size] is rebound to. *)
Definition resolve_block_size (block_size : block_size_t) (spatial_ndim : nat)
  : result (list Z) :=
  match block_size with
  | BSInt n => Ok (repeat n spatial_ndim)
  | BSTuple t =>
      if negb (length t =? spatial_ndim)%nat
      then Raise (ValueError
             "Length of `block_size` should be the same as spatial dimensions of input.")
      else Ok t
  | _ => Raise (ValueError "block_size should be int or tuple!")
  end.

(** Everything [_dropblock] computes from the shape and the arguments
    before it samples. *)
Record plan := {
  p_block_size : list Z;
  p_block_size_tf : list Z;
  p_inner_area : list Z;
  p_gamma : float32;
  p_sampling_mask_shape : list Z;
  p_pad_shape : list (Z * Z);
  p_pool_size : list Z;
  p_strides : list Z
}.

(** Lines 47-99 of [_dropblock], the sampling (line 86) and the tensor
    operations on the mask left to [run_plan]. The only failures it has
    are the two [raise] statements of lines 63 and 66. Integer tensors are
    unbounded integers without a dtype, so an exception out of TensorFlow
    itself (line 60 builds its tensor without [dtype=tf.int32], and line 67
    needs both operands of one dtype) has no counterpart here: [Ok] means
    that the checks of the source were passed, and the general statements
    below take the success of [_dropblock] as a hypothesis wherever they
    need it. *)
Definition make_plan (inputs : tensor) (dropout_rate : float32)
    (block_size : block_size_t) (data_format : string) : result plan :=
  let one := [1] in
  let zeros_pad := [(0, 0)] in
  let input_shape := shape inputs in
  let sd := spatial_dims input_shape data_format in
  let ch := channels input_shape data_format in
  let spatial_ndim := length sd in
  let! block_size := resolve_block_size block_size spatial_ndim in
  let block_size_tf := zip_with Z.min block_size sd in
  let block_size_tf := map (fun b => Z.max b 1) block_size_tf in
  let inner_area := zip_with (fun s b => s - b + 1) sd block_size_tf in
  let gamma :=
    fdiv (fdiv (fmul dropout_rate (reduce_prod (map to_float sd)))
               (reduce_prod (map to_float block_size_tf)))
         (reduce_prod (map to_float inner_area)) in
  let sampling_mask_shape :=
    if channels_first data_format
    then one ++ ch ++ inner_area
    else one ++ inner_area ++ ch in
  let left_spatial_pad := map (fun b => (b - 1) / 2) block_size_tf in
  let right_spatial_pad :=
    zip_with (fun b l => b - 1 - l) block_size_tf left_spatial_pad in
  let spatial_pads := combine left_spatial_pad right_spatial_pad in
  let pad_shape :=
    if channels_first data_format
    then zeros_pad ++ zeros_pad ++ spatial_pads
    else zeros_pad ++ spatial_pads ++ zeros_pad in
  Ok {| p_block_size := block_size;
        p_block_size_tf := block_size_tf;
        p_inner_area := inner_area;
        p_gamma := gamma;
        p_sampling_mask_shape := sampling_mask_shape;
        p_pad_shape := pad_shape;
        p_pool_size := block_size;
        p_strides := repeat 1 spatial_ndim |}.

(** Lines 95-102: the seed points padded, pooled and inverted. *)
Definition kept_mask (p : plan) (sampled : tensor) (data_format : string) : tensor :=
  let mask := tf_pad sampled (p_pad_shape p) in
  let mask := max_pooling mask (p_pool_size p) (p_strides p) data_format in
  one_minus mask.

(** Lines 103-107. *)
Definition apply_mask (inputs mask : tensor) : tensor :=
  let output := tf_multiply inputs mask in
  rescale output (to_float (tf_size mask)) (reduce_sum mask).

(** Line 86 and lines 95-107: one draw, then the mask applied. *)
Definition run_plan (noise : list Z -> float32) (p : plan) (inputs : tensor)
    (seed : option Z) (data_format : string) : M tensor :=
  bindM (sample noise (p_gamma p) (p_sampling_mask_shape p) seed)
        (fun sampled => ret (apply_mask inputs (kept_mask p sampled data_format))).

(** The Python body runs first and may raise; what it returns is the
    computation of the output tensor. *)
Definition _dropblock (noise : list Z -> float32) (inputs : tensor)
    (dropout_rate : float32) (block_size : block_size_t) (seed : option Z)
    (data_format : string) : result (M tensor) :=
  let! p := make_plan inputs dropout_rate block_size data_format in
  Ok (run_plan noise p inputs seed data_format).

(** *** [dropblock] *)

(** [tf.cond] builds both branches when a graph is constructed and runs
    only the chosen one; in eager execution only the chosen branch is
    called at all. *)
Inductive exec_mode :=
| GraphMode
| EagerMode.

Definition tf_cond {A : Type} (mode : exec_mode) (pred : bool)
    (true_fn false_fn : unit -> result (M A)) : result (M A) :=
  match mode with
  | EagerMode => if pred then true_fn tt else false_fn tt
  | GraphMode =>
      let! t := true_fn tt in
      let! f := false_fn tt in
      Ok (if pred then t else f)
  end.

(** [tf.logical_or(tf.logical_not(is_training), tf.equal(dropout_rate, 0.0))].
    [dropout_rate] is the float32 value of the tensor TensorFlow makes of
    the argument, [convert_to_tensor] below for a Python float: the
    comparison with 0 is one of float32 values. *)
Definition inactive (dropout_rate : float32) (is_training : bool) : bool :=
  negb is_training || feqb dropout_rate (Finite 0).

Definition dropblock (mode : exec_mode) (noise : list Z -> float32)
    (inputs : tensor) (dropout_rate : float32) (block_size : block_size_t)
    (is_training : bool) (data_format : string) (seed : option Z)
  : result (M tensor) :=
  tf_cond mode (inactive dropout_rate is_training)
          (fun _ => Ok (ret inputs))
          (fun _ => _dropblock noise inputs dropout_rate block_size seed data_format).

(** Running a built computation from an empty log. *)
Definition run {A : Type} (r : result (M A)) : result (A * list draw) :=
  let! m := r in Ok (m []).

(** *** float32 as it is rounded *)












(** The operations of lines 70-77 on a type of float32 values: without
    rounding on [float32], rounded as TensorFlow does on [binary32]. *)
Record arith (F : Type) := {
  a_one : F;
  a_cast : Z -> F;
  a_mul : F -> F -> F;
  a_div : F -> F -> F
}.

Arguments a_one {F}.
Arguments a_cast {F}.
Arguments a_mul {F}.
Arguments a_div {F}.



(** [tf.math.reduce_prod] of a vector of casts; the order of the
    multiplications is that of [reduce_prod] above and plays no part as long
    as every partial product is below [2^24], which binary32 holds
    exactly. *)
Definition prod_of {F : Type} (A : arith F) (l : list Z) : F :=
  fold_right (a_mul A) (a_one A) (map (a_cast A) l).

(** Lines 70-77: [dropout_rate * prod(spatial_dims) / prod(block_size_tf)
    / prod(inner_area)], which Python reads from left to right: one
    product, then one division after the other. *)
Definition gamma {F : Type} (A : arith F) (dropout_rate : F)
    (spatial_dims block_size_tf inner_area : list Z) : F :=
  a_div A
    (a_div A (a_mul A dropout_rate (prod_of A spatial_dims))
             (prod_of A block_size_tf))
    (prod_of A inner_area).




(** Inputs used as concrete cases below: a batch of two 3x3 single-channel
    maps of ones, and the draw in which every seed point is set. *)
Definition ones_2x3x3x1 : tensor :=
  {| shape := [2; 3; 3; 1]; at_ := fun _ => Finite 1 |}.

Definition every_seed : list Z -> float32 := fun _ => Finite 1.


(** A batch of two 4x5 maps with three channels, channels last, holding the
    value 2 everywhere. *)
Definition twos_2x4x5x3 : tensor :=
  {| shape := [2; 4; 5; 3]; at_ := fun _ => Finite 2 |}.


End DropBlock.

(** * Properties *)

(** ** Failure propagation *)

Lemma bind_ok {A B : Type} (r : result A) (k : A -> result B) (b : B) :
  Py.bind r k = Ok b -> exists a, r = Ok a /\ k a = Ok b.
Proof.
  destruct r as [a | e]; simpl; intros Hk.
  - exists a. split; [reflexivity | exact Hk].
  - discriminate Hk.
Qed.

Ltac bind_inv H :=
  let x := fresh "x" in
  let Hx := fresh "H" x in
  apply bind_ok in H; destruct H as (x & Hx & H).

(** ** Counting convolutions *)

Lemma list_ascii_of_string_app (s1 s2 : string) :
  list_ascii_of_string (s1 ++ s2) =
  (list_ascii_of_string s1 ++ list_ascii_of_string s2)%list.
Proof.
  induction s1 as [| c s1 IH]; simpl.
  - reflexivity.
  - now rewrite IH.
Qed.

Lemma list_sum_app_nat (l1 l2 : list nat) :
  list_sum (l1 ++ l2) = (list_sum l1 + list_sum l2)%nat.
Proof.
  induction l1 as [| x l1 IH]; simpl; [reflexivity | lia].
Qed.

Lemma num_convs_app (s1 s2 : string) :
  num_convs (s1 ++ s2) = (num_convs s1 + num_convs s2)%nat.
Proof.
  unfold num_convs.
  now rewrite list_ascii_of_string_app, map_app, list_sum_app_nat.
Qed.

Lemma num_convs_bottleneck (layout : string) :
  num_convs ("cna" ++ layout ++ "cna") = (num_convs layout + 2)%nat.
Proof.
  rewrite !num_convs_app.
  change (num_convs "cna") with 1%nat. lia.
Qed.

Lemma broadcast_length (x : int_or_list) (n : nat) :
  ResBlock.fits x n = true -> length (broadcast x n) = n.
Proof.
  destruct x as [z | l]; simpl; intros Hfit.
  - apply repeat_length.
  - now apply Nat.eqb_eq.
Qed.

(** ** The stages of [ResBlock.__init__] *)

Section ResBlockStages.
Context `{Host}.
Import ResBlock.

Lemma resolve_inv (a : kwargs) (st : locals) :
  resolve a = Ok st ->
  exists f, eval_filters a = Ok f /\
    l_layout st = layout a /\
    l_filters st = broadcast f (num_convs (layout a)) /\
    l_kernel_size st = broadcast (kernel_size a) (num_convs (layout a)) /\
    l_strides st = broadcast (strides a) (num_convs (layout a)) /\
    l_strides_d st = l_strides st /\
    l_groups st = repeat (groups a) (num_convs (layout a)) /\
    l_side_branch_stride st = np_prod (l_strides st) /\
    l_side_branch_stride_d st = np_prod (l_strides st).
Proof.
  unfold resolve. intros Hr. bind_inv Hr.
  injection Hr as <-. exists x. simpl. repeat split; assumption || reflexivity.
Qed.

Lemma apply_downsample_off (flag : flag_t) (st st' : locals) :
  truthy flag = false -> apply_downsample flag st = Ok st' -> st' = st.
Proof.
  unfold apply_downsample. intros ->. congruence.
Qed.

Lemma apply_downsample_on (flag : flag_t) (st st' : locals) :
  truthy flag = true -> apply_downsample flag st = Ok st' ->
  exists s0 rest,
    l_strides_d st = s0 :: rest /\
    l_strides_d st' = s0 * factor 2 flag :: rest /\
    l_side_branch_stride_d st' = l_side_branch_stride_d st * factor 2 flag /\
    l_layout st' = l_layout st /\ l_filters st' = l_filters st /\
    l_kernel_size st' = l_kernel_size st /\ l_strides st' = l_strides st /\
    l_groups st' = l_groups st /\
    l_side_branch_stride st' = l_side_branch_stride st.
Proof.
  unfold apply_downsample. intros ->.
  destruct (l_strides_d st) as [| s0 rest]; [discriminate |].
  intros [= <-]. exists s0, rest. simpl. repeat split.
Qed.

Lemma apply_downsample_frame (flag : flag_t) (st st' : locals) :
  apply_downsample flag st = Ok st' ->
  l_layout st' = l_layout st /\ l_filters st' = l_filters st /\
  l_kernel_size st' = l_kernel_size st /\ l_strides st' = l_strides st /\
  l_groups st' = l_groups st /\
  l_side_branch_stride st' = l_side_branch_stride st /\
  length (l_strides_d st') = length (l_strides_d st).
Proof.
  intros Hd. destruct (truthy flag) eqn:Hf.
  - destruct (apply_downsample_on _ _ _ Hf Hd)
      as (s0 & rest & E1 & E2 & _ & E4 & E5 & E6 & E7 & E8 & E9).
    rewrite E1, E2. simpl. repeat split; assumption.
  - apply (apply_downsample_off _ _ _ Hf) in Hd. subst st'. repeat split.
Qed.

Lemma apply_bottleneck_off (flag : flag_t) (st st' : locals) :
  truthy flag = false -> apply_bottleneck flag st = Ok st' -> st' = st.
Proof.
  unfold apply_bottleneck. intros ->. congruence.
Qed.

Lemma apply_bottleneck_on (flag : flag_t) (st st' : locals) :
  truthy flag = true -> apply_bottleneck flag st = Ok st' ->
  exists f0 rest,
    l_filters st = f0 :: rest /\
    l_filters st' = [f0] ++ l_filters st ++ [f0 * factor 4 flag] /\
    l_layout st' = ("cna" ++ l_layout st ++ "cna")%string /\
    l_kernel_size st' = [1] ++ l_kernel_size st ++ [1] /\
    l_strides st' = [1] ++ l_strides st ++ [1] /\
    l_strides_d st' = [1] ++ l_strides_d st ++ [1] /\
    l_groups st' = [PInt 1] ++ l_groups st ++ [PInt 1] /\
    l_side_branch_stride st' = l_side_branch_stride st /\
    l_side_branch_stride_d st' = l_side_branch_stride_d st.
Proof.
  unfold apply_bottleneck. intros ->.
  destruct (l_filters st) as [| f0 rest] eqn:Ef; [discriminate |].
  intros [= <-]. exists f0, rest. simpl. repeat split.
Qed.

Lemma apply_bottleneck_around (flag : flag_t) (st st' : locals) :
  apply_bottleneck flag st = Ok st' ->
  l_kernel_size st' = around flag (l_kernel_size st) /\
  l_strides st' = around flag (l_strides st) /\
  l_strides_d st' = around flag (l_strides_d st) /\
  l_side_branch_stride st' = l_side_branch_stride st /\
  l_side_branch_stride_d st' = l_side_branch_stride_d st.
Proof.
  intros Hb. unfold around. destruct (truthy flag) eqn:Hf.
  - destruct (apply_bottleneck_on _ _ _ Hf Hb)
      as (f0 & rest & _ & _ & _ & E1 & E2 & E3 & _ & E4 & E5).
    repeat split; assumption.
  - apply (apply_bottleneck_off _ _ _ Hf) in Hb. subst st'. repeat split.
Qed.

Lemma call_ConvBlock_inv (a : kwargs) (st : locals) (c : ConvBlock_call) :
  call_ConvBlock a st = Ok c ->
  cb_layer_params c =
    {| lp_strides := Some (l_strides_d st);
       lp_side_branch_strides := Some (l_side_branch_stride_d st) |}
    :: repeat empty_param (Z.to_nat (n_reps a - 1)) /\
  cb_layout c = ("B" ++ l_layout st ++ op a)%string /\
  cb_filters c = l_filters st /\
  cb_kernel_size c = l_kernel_size st /\
  cb_strides c = l_strides st /\
  cb_groups c = l_groups st /\
  sb_strides (cb_side_branch c) = l_side_branch_stride st.
Proof.
  unfold call_ConvBlock.
  destruct (l_filters st) as [| f0 fs] eqn:Ef; [discriminate |].
  intros [= <-]. simpl. repeat split.
Qed.

Lemma init_inv (a : kwargs) (c : ConvBlock_call) :
  __init__ a = Ok c ->
  exists st0 st1 st2,
    resolve a = Ok st0 /\
    apply_downsample (downsample a) st0 = Ok st1 /\
    apply_bottleneck (bottleneck a) st1 = Ok st2 /\
    expanded a = Ok st2 /\
    call_ConvBlock a st2 = Ok c.
Proof.
  unfold __init__. intros Hi. bind_inv Hi.
  pose proof Hx as Hexp. unfold expanded in Hx.
  bind_inv Hx. bind_inv Hx.
  exists x0, x1, x. repeat split; assumption.
Qed.

End ResBlockStages.

(** ** The scenarios of the specification *)

Example scenario_plain :
  exists c, ResBlock.__init__ plain_block = Ok c /\
    ResBlock.cb_filters c = [64; 64] /\
    ResBlock.cb_layout c = "Bcnacna+"%string /\
    ResBlock.sb_strides (ResBlock.cb_side_branch c) = 1.
Proof.
  eexists. repeat split.
Qed.

Example scenario_bottleneck :
  exists c, ResBlock.__init__ bottleneck_block = Ok c /\
    ResBlock.cb_filters c = [64; 64; 64; 256] /\
    ResBlock.cb_kernel_size c = [1; 3; 3; 1] /\
    ResBlock.cb_layout c = "Bcnacnacnacna+"%string.
Proof.
  eexists. repeat split.
Qed.

Example scenario_downsample :
  exists c, ResBlock.__init__ downsample_block = Ok c /\
    ResBlock.rep_strides c 0 = Some [2; 1] /\
    ResBlock.rep_side_branch_strides c 0 = Some 2 /\
    ResBlock.cb_strides c = [1; 1].
Proof.
  eexists. repeat split.
Qed.

(** ** Bottleneck *)

Section Bottleneck.
Context `{Host}.
Import ResBlock.

(** C1, as amended. When the bottleneck is on with factor [k], the filters
    handed to [ConvBlock] are the list resolved by lines 33-36 with two
    more entries: its own first entry in front, and that first entry times
    [k] at the back. *)
Theorem bottleneck_filters (a : kwargs) (k : Z) (st : locals) (c : ConvBlock_call) :
  truthy (bottleneck a) = true ->
  factor 4 (bottleneck a) = k ->
  resolve a = Ok st ->
  __init__ a = Ok c ->
  exists f0 rest,
    l_filters st = f0 :: rest /\
    cb_filters c = [f0] ++ l_filters st ++ [f0 * k] /\
    length (cb_filters c) = (length (l_filters st) + 2)%nat /\
    hd_error (cb_filters c) = Some f0 /\
    List.last (cb_filters c) 0 = f0 * k.
Proof.
  intros Hon Hk Hres Hinit.
  destruct (init_inv _ _ Hinit) as (st0 & st1 & st2 & R0 & R1 & R2 & _ & R3).
  rewrite Hres in R0. injection R0 as <-.
  destruct (apply_downsample_frame _ _ _ R1) as (_ & Ef & _).
  destruct (apply_bottleneck_on _ _ _ Hon R2) as (f0 & rest & E1 & E2 & _).
  destruct (call_ConvBlock_inv _ _ _ R3) as (_ & _ & Ec & _).
  rewrite Ef in E1, E2. rewrite Hk in E2.
  exists f0, rest. rewrite Ec, E2.
  repeat split.
  - exact E1.
  - simpl. rewrite length_app. simpl. lia.
  - change ([f0] ++ l_filters st ++ [f0 * k])%list
      with (f0 :: (l_filters st ++ [f0 * k]))%list.
    rewrite app_comm_cons. apply last_last.
Qed.

End Bottleneck.

Lemma bottleneck_filters_witness :
  truthy (ResBlock.bottleneck two_filter_bottleneck) = true /\
  factor 4 (ResBlock.bottleneck two_filter_bottleneck) = 4 /\
  exists f0 rest,
    [64; 128] = f0 :: rest /\
    [64; 64; 128; 256] = [f0] ++ [64; 128] ++ [f0 * 4] /\
    4%nat = (2 + 2)%nat /\
    Some 64 = Some f0 /\
    256 = f0 * 4.
Proof.
  split; [reflexivity |]. split; [reflexivity |].
  exact (bottleneck_filters two_filter_bottleneck 4
           {| ResBlock.l_layout := "cnacna";
              ResBlock.l_filters := [64; 128];
              ResBlock.l_kernel_size := [3; 3];
              ResBlock.l_strides := [1; 1];
              ResBlock.l_strides_d := [1; 1];
              ResBlock.l_groups := [PInt 1; PInt 1];
              ResBlock.l_side_branch_stride := 1;
              ResBlock.l_side_branch_stride_d := 1 |}
           {| ResBlock.cb_layer_params :=
                [{| ResBlock.lp_strides := Some [1; 1; 1; 1];
                    ResBlock.lp_side_branch_strides := Some 1 |}];
              ResBlock.cb_inputs := (32 : @tensor_t channel_host);
              ResBlock.cb_layout := "Bcnacnacnacna+";
              ResBlock.cb_filters := [64; 64; 128; 256];
              ResBlock.cb_kernel_size := [1; 3; 3; 1];
              ResBlock.cb_strides := [1; 1; 1; 1];
              ResBlock.cb_groups := [PInt 1; PInt 1; PInt 1; PInt 1];
              ResBlock.cb_side_branch :=
                {| ResBlock.sb_layout := "c";
                   ResBlock.sb_filters := 256;
                   ResBlock.sb_strides := 1 |} |}
           eq_refl eq_refl eq_refl eq_refl).
Defined.

(** C1 as stated fails: with [filters=[64, 128]] on a 32-channel input the
    resolved list is [[64, 64, 128, 256]]; its front entry is 64, not the 32
    input channels, and its last entry is 64 * 4, not 128 * 4. *)
Lemma bottleneck_filters_counterexample :
  truthy (ResBlock.bottleneck two_filter_bottleneck) = true /\
  factor 4 (ResBlock.bottleneck two_filter_bottleneck) = 4 /\
  get_num_channels (ResBlock.inputs two_filter_bottleneck) = 32 /\
  exists st c,
    ResBlock.resolve two_filter_bottleneck = Ok st /\
    ResBlock.l_filters st = [64; 128] /\
    ResBlock.__init__ two_filter_bottleneck = Ok c /\
    ResBlock.cb_filters c = [64; 64; 128; 256] /\
    hd_error (ResBlock.cb_filters c)
      <> Some (get_num_channels (ResBlock.inputs two_filter_bottleneck)) /\
    List.last (ResBlock.cb_filters c) 0
      <> List.last (ResBlock.l_filters st) 0 * 4.
Proof.
  repeat (split; [reflexivity |]).
  eexists. eexists.
  split; [reflexivity |]. split; [reflexivity |].
  split; [reflexivity |]. split; [reflexivity |].
  split; simpl; intros E; discriminate E.
Qed.

(** ** One entry per convolution *)

Section PerConvLengths.
Context `{Host}.
Import ResBlock.

Lemma expanded_inv (a : kwargs) (st : locals) :
  expanded a = Ok st ->
  exists st0 st1,
    resolve a = Ok st0 /\
    apply_downsample (downsample a) st0 = Ok st1 /\
    apply_bottleneck (bottleneck a) st1 = Ok st.
Proof.
  unfold expanded. intros He. bind_inv He. bind_inv He.
  exists x, x0. repeat split; assumption.
Qed.

(** [groups] is repeated whatever it is. *)
Lemma resolve_groups (a : kwargs) (st : locals) :
  resolve a = Ok st ->
  l_groups st = repeat (groups a) (num_convs (layout a)).
Proof.
  intros Hr. destruct (resolve_inv _ _ Hr) as (f & _ & _ & _ & _ & _ & _ & Eg & _).
  exact Eg.
Qed.

(** C3, as amended. When [filters] (after [eval]), [kernel_size] and
    [strides] are each a single int or a list with one entry per convolution
    of the given layout, the five lists that stand after line 55 all have as
    many entries as the layout, bottleneck convolutions included, has
    convolution letters. *)
Theorem per_conv_lengths (a : kwargs) (f : int_or_list) (st : locals) :
  eval_filters a = Ok f ->
  fits f (num_convs (layout a)) = true ->
  fits (kernel_size a) (num_convs (layout a)) = true ->
  fits (strides a) (num_convs (layout a)) = true ->
  expanded a = Ok st ->
  l_layout st = (if truthy (bottleneck a)
                 then "cna" ++ layout a ++ "cna" else layout a)%string /\
  length (l_filters st) = num_convs (l_layout st) /\
  length (l_kernel_size st) = num_convs (l_layout st) /\
  length (l_strides st) = num_convs (l_layout st) /\
  length (l_strides_d st) = num_convs (l_layout st) /\
  length (l_groups st) = num_convs (l_layout st) /\
  forall c : ConvBlock_call,
    __init__ a = Ok c ->
    cb_filters c = l_filters st /\
    cb_kernel_size c = l_kernel_size st /\
    cb_strides c = l_strides st /\
    hd_error (cb_layer_params c)
      = Some {| lp_strides := Some (l_strides_d st);
                lp_side_branch_strides := Some (l_side_branch_stride_d st) |} /\
    cb_groups c = l_groups st /\
    cb_layout c = ("B" ++ l_layout st ++ op a)%string.
Proof.
  intros Hf Ff Fk Fs He.
  assert (Hcall : forall c : ConvBlock_call,
    __init__ a = Ok c ->
    cb_filters c = l_filters st /\
    cb_kernel_size c = l_kernel_size st /\
    cb_strides c = l_strides st /\
    hd_error (cb_layer_params c)
      = Some {| lp_strides := Some (l_strides_d st);
                lp_side_branch_strides := Some (l_side_branch_stride_d st) |} /\
    cb_groups c = l_groups st /\
    cb_layout c = ("B" ++ l_layout st ++ op a)%string).
  { intros c Hc.
    destruct (init_inv _ _ Hc) as (_ & _ & st2 & _ & _ & _ & He2 & Hcb).
    rewrite He in He2. injection He2 as <-.
    destruct (call_ConvBlock_inv _ _ _ Hcb) as (C1 & C2 & C3 & C4 & C5 & C6 & _).
    rewrite C1. repeat split; assumption. }
  enough (Hmain :
    l_layout st = (if truthy (bottleneck a)
                   then "cna" ++ layout a ++ "cna" else layout a)%string /\
    length (l_filters st) = num_convs (l_layout st) /\
    length (l_kernel_size st) = num_convs (l_layout st) /\
    length (l_strides st) = num_convs (l_layout st) /\
    length (l_strides_d st) = num_convs (l_layout st) /\
    length (l_groups st) = num_convs (l_layout st)).
  { destruct Hmain as (M1 & M2 & M3 & M4 & M5 & M6).
    exact (conj M1 (conj M2 (conj M3 (conj M4 (conj M5 (conj M6 Hcall)))))). }
  clear Hcall.
  destruct (expanded_inv _ _ He) as (st0 & st1 & R0 & R1 & R2).
  destruct (resolve_inv _ _ R0)
    as (f' & Hf' & El & Efl & Ek & Es & Esd & Eg & _).
  rewrite Hf in Hf'. injection Hf' as <-.
  destruct (apply_downsample_frame _ _ _ R1)
    as (Dl & Dfl & Dk & Ds & Dg & _ & Dsd).
  assert (L0 : length (l_filters st1) = num_convs (layout a)
            /\ length (l_kernel_size st1) = num_convs (layout a)
            /\ length (l_strides st1) = num_convs (layout a)
            /\ length (l_strides_d st1) = num_convs (layout a)
            /\ length (l_groups st1) = num_convs (layout a)).
  { rewrite Dfl, Dk, Ds, Dg, Dsd, Esd, Efl, Ek, Es, Eg.
    rewrite !broadcast_length by assumption.
    rewrite repeat_length. repeat split. }
  destruct L0 as (L1 & L2 & L3 & L4 & L5).
  destruct (truthy (bottleneck a)) eqn:Hb.
  - destruct (apply_bottleneck_on _ _ _ Hb R2)
      as (f0 & rest & _ & B1 & B2 & B3 & B4 & B5 & B6 & _).
    rewrite B1, B2, B3, B4, B5, B6, Dl, El.
    rewrite num_convs_bottleneck.
    repeat split; simpl; rewrite length_app; simpl; lia.
  - apply (apply_bottleneck_off _ _ _ Hb) in R2. subst st.
    rewrite Dl, El. repeat split; assumption.
Qed.

End PerConvLengths.

Lemma per_conv_lengths_witness :
  ResBlock.eval_filters downsampled_stage = Ok (PInt 64) /\
  ResBlock.fits (PInt 64) (num_convs "cnacna") = true /\
  ResBlock.fits (PInt 3) (num_convs "cnacna") = true /\
  ResBlock.fits (PInt 1) (num_convs "cnacna") = true /\
  "cnacnacnacna"%string = "cnacnacnacna"%string /\
  length [64; 64; 64; 256] = num_convs "cnacnacnacna" /\
  length [1; 3; 3; 1] = num_convs "cnacnacnacna" /\
  length [1; 1; 1; 1] = num_convs "cnacnacnacna" /\
  length [1; 2; 1; 1] = num_convs "cnacnacnacna" /\
  length [PInt 1; PInt 32; PInt 32; PInt 1] = num_convs "cnacnacnacna".
Proof.
  do 4 (split; [reflexivity |]).
  refine (let W := per_conv_lengths downsampled_stage (PInt 64)
           {| ResBlock.l_layout := "cnacnacnacna";
              ResBlock.l_filters := [64; 64; 64; 256];
              ResBlock.l_kernel_size := [1; 3; 3; 1];
              ResBlock.l_strides := [1; 1; 1; 1];
              ResBlock.l_strides_d := [1; 2; 1; 1];
              ResBlock.l_groups := [PInt 1; PInt 32; PInt 32; PInt 1];
              ResBlock.l_side_branch_stride := 1;
              ResBlock.l_side_branch_stride_d := 2 |}
           eq_refl eq_refl eq_refl eq_refl eq_refl in _).
  destruct W as (W1 & W2 & W3 & W4 & W5 & W6 & _).
  repeat split; assumption.
Defined.

(** C3 as stated fails: [filters=[64]] with the two-convolution layout
    ['cnacna'] goes through [__init__] without an error, and the filters
    handed to [ConvBlock] have one entry for two convolution letters. *)
Lemma per_conv_lengths_counterexample :
  exists st c,
    ResBlock.expanded short_filters_block = Ok st /\
    ResBlock.__init__ short_filters_block = Ok c /\
    ResBlock.l_layout st = "cnacna"%string /\
    ResBlock.cb_layout c = "Bcnacna+"%string /\
    num_convs (ResBlock.l_layout st) = 2%nat /\
    ResBlock.cb_filters c = [64] /\
    length (ResBlock.cb_filters c) <> num_convs (ResBlock.l_layout st).
Proof.
  eexists. eexists.
  repeat (split; [reflexivity |]).
  simpl. intros E. discriminate E.
Qed.

(** ** Downsampling *)

Lemma wrap_int64_small (z : Z) :
  - 2 ^ 63 <= z < 2 ^ 63 -> wrap_int64 z = z.
Proof.
  intros Hz. unfold wrap_int64.
  rewrite Z.mod_small by lia. lia.
Qed.

Lemma np_prod_exact (l : list Z) :
  - 2 ^ 63 <= fold_right Z.mul 1 l < 2 ^ 63 ->
  np_prod l = fold_right Z.mul 1 l.
Proof.
  apply wrap_int64_small.
Qed.

Section Downsample.
Context `{Host}.
Import ResBlock.

Lemma nth_error_repeat_lt {A : Type} (x : A) (n i : nat) :
  (i < n)%nat -> nth_error (repeat x n) i = Some x.
Proof.
  revert i. induction n as [| n IH]; intros i Hi; [lia |].
  destruct i as [| i]; simpl; [reflexivity |].
  apply IH. lia.
Qed.

(** C4. With [downsample] on with factor [d], the dictionary of the first
    repetition carries the strides with the first convolution's stride of
    the given layout multiplied by [d] (between the two [1]s of the
    bottleneck when that is on) and the side-branch stride multiplied by
    [d]; every later repetition has an empty dictionary, so it is built
    with the keyword arguments: the strides without the factor and the
    side-branch stride [np.prod(strides)]. *)
Theorem downsample_first_repetition_only
    (a : kwargs) (d : Z) (st : locals) (c : ConvBlock_call) :
  truthy (downsample a) = true ->
  factor 2 (downsample a) = d ->
  resolve a = Ok st ->
  __init__ a = Ok c ->
  exists s0 rest,
    l_strides st = s0 :: rest /\
    rep_strides c 0 = Some (around (bottleneck a) (s0 * d :: rest)) /\
    rep_side_branch_strides c 0 = Some (np_prod (s0 :: rest) * d) /\
    cb_strides c = around (bottleneck a) (s0 :: rest) /\
    sb_strides (cb_side_branch c) = np_prod (s0 :: rest) /\
    (- 2 ^ 63 <= fold_right Z.mul 1 (s0 :: rest) < 2 ^ 63 ->
     np_prod (s0 :: rest) = fold_right Z.mul 1 (s0 :: rest)) /\
    length (cb_layer_params c) = S (Z.to_nat (n_reps a - 1)) /\
    forall i : nat,
      (1 <= i < length (cb_layer_params c))%nat ->
      nth_error (cb_layer_params c) i = Some empty_param /\
      rep_strides c i = Some (around (bottleneck a) (s0 :: rest)) /\
      rep_side_branch_strides c i = Some (np_prod (s0 :: rest)).
Proof.
  intros Hon Hd Hres Hinit.
  destruct (init_inv _ _ Hinit) as (st0 & st1 & st2 & R0 & R1 & R2 & _ & R3).
  rewrite Hres in R0. injection R0 as <-.
  destruct (resolve_inv _ _ Hres)
    as (f & _ & _ & _ & _ & _ & Esd & _ & Eside & Esided).
  destruct (apply_downsample_on _ _ _ Hon R1)
    as (s0 & rest & D1 & D2 & D3 & _ & _ & _ & D4 & _ & D5).
  destruct (apply_bottleneck_around _ _ _ R2) as (_ & B1 & B2 & B3 & B4).
  destruct (call_ConvBlock_inv _ _ _ R3) as (C1 & _ & _ & _ & C2 & _ & C3).
  rewrite Esd in D1. rewrite Hd in D2, D3.
  exists s0, rest.
  assert (Ecb : cb_strides c = around (bottleneck a) (s0 :: rest))
    by (rewrite C2, B1, D4; now rewrite D1).
  assert (Esb : sb_strides (cb_side_branch c) = np_prod (s0 :: rest))
    by (rewrite C3, B3, D5, Eside; now rewrite D1).
  split; [exact D1 |].
  split.
  { unfold rep_strides. rewrite C1. simpl. now rewrite B2, D2. }
  split.
  { unfold rep_side_branch_strides. rewrite C1. simpl.
    rewrite B4, D3, Esided. now rewrite D1. }
  split; [exact Ecb |].
  split; [exact Esb |].
  split; [apply np_prod_exact |].
  split.
  { rewrite C1. simpl. now rewrite repeat_length. }
  intros i Hi.
  assert (Hnth : nth_error (cb_layer_params c) i = Some empty_param).
  { rewrite C1 in Hi |- *. simpl in Hi. rewrite repeat_length in Hi.
    destruct i as [| i]; [lia |]. simpl.
    apply nth_error_repeat_lt. lia. }
  split; [exact Hnth |].
  unfold rep_strides, rep_side_branch_strides. rewrite Hnth. simpl.
  now rewrite Ecb, Esb.
Qed.

End Downsample.

Lemma downsample_first_repetition_only_witness :
  truthy (ResBlock.downsample downsampled_stage) = true /\
  factor 2 (ResBlock.downsample downsampled_stage) = 2 /\
  exists c, ResBlock.__init__ downsampled_stage = Ok c /\
  exists s0 rest,
    [1; 1] = s0 :: rest /\
    ResBlock.rep_strides c 0
      = Some (ResBlock.around (FlagBool true) (s0 * 2 :: rest)) /\
    ResBlock.rep_side_branch_strides c 0 = Some (np_prod (s0 :: rest) * 2) /\
    ResBlock.cb_strides c = ResBlock.around (FlagBool true) (s0 :: rest) /\
    ResBlock.sb_strides (ResBlock.cb_side_branch c) = np_prod (s0 :: rest) /\
    (- 2 ^ 63 <= fold_right Z.mul 1 (s0 :: rest) < 2 ^ 63 ->
     np_prod (s0 :: rest) = fold_right Z.mul 1 (s0 :: rest)) /\
    length (ResBlock.cb_layer_params c) = 3%nat /\
    forall i : nat,
      (1 <= i < length (ResBlock.cb_layer_params c))%nat ->
      nth_error (ResBlock.cb_layer_params c) i = Some ResBlock.empty_param /\
      ResBlock.rep_strides c i
        = Some (ResBlock.around (FlagBool true) (s0 :: rest)) /\
      ResBlock.rep_side_branch_strides c i = Some (np_prod (s0 :: rest)).
Proof.
  split; [reflexivity |]. split; [reflexivity |].
  eexists. split; [reflexivity |].
  exact (downsample_first_repetition_only downsampled_stage 2
           {| ResBlock.l_layout := "cnacna";
              ResBlock.l_filters := [64; 64];
              ResBlock.l_kernel_size := [3; 3];
              ResBlock.l_strides := [1; 1];
              ResBlock.l_strides_d := [1; 1];
              ResBlock.l_groups := [PInt 32; PInt 32];
              ResBlock.l_side_branch_stride := 1;
              ResBlock.l_side_branch_stride_d := 1 |}
           _ eq_refl eq_refl eq_refl eq_refl).
Defined.

(** ** Groups *)

(** C5 fails on the code: [groups=[2, 4]] with the two-convolution layout
    ['cnacna'] is not used as it is; line 40 repeats the whole list once per
    convolution, while a [filters], [kernel_size] or [strides] list of that
    length goes through unchanged. *)
Lemma groups_sequence_is_repeated :
  exists c,
    ResBlock.__init__ grouped_block = Ok c /\
    ResBlock.cb_groups c = [PList [2; 4]; PList [2; 4]] /\
    ResBlock.cb_groups c <> [PInt 2; PInt 4] /\
    broadcast (PList [2; 4]) (num_convs "cnacna") = [2; 4].
Proof.
  eexists. split; [reflexivity |].
  split; [reflexivity |].
  split; [| reflexivity].
  simpl. intros E. discriminate E.
Qed.

(** ** The ResNeXt50 configuration *)

Lemma config_set_eq (path : string) (v : pyval) (config : Config.t) :
  Config.get path (Config.set path v config) = Some v.
Proof.
  unfold Config.get, Config.set. apply lookup_insert_eq.
Qed.

Lemma config_set_ne (path path' : string) (v : pyval) (config : Config.t) :
  path <> path' ->
  Config.get path' (Config.set path v config) = Config.get path' config.
Proof.
  unfold Config.get, Config.set. apply lookup_insert_ne.
Qed.

(** The ResNet50 chain never writes the groups leaf. *)
Lemma resnet50_leaves_groups (encoder_config : Config.t) :
  Config.get "body/encoder/blocks/groups" (ResNet50.default_config encoder_config)
  = Config.get "body/encoder/blocks/groups" encoder_config.
Proof.
  unfold ResNet50.default_config, ResNet34.default_config, ResNet.default_config.
  unfold Config.iadd, Config.get, Config.set. cbn [fold_left fst snd].
  repeat (rewrite lookup_insert_ne by (vm_compute; discriminate)).
  reflexivity.
Qed.

(** C10. [ResNeXt50.default_config()] is [ResNet50.default_config()] with
    the leaf ['body/encoder/blocks/groups'] set to 32, a leaf that the
    ResNet50 chain itself never writes, and every other leaf path reads the
    same in both. *)
Theorem resnext50_overrides_groups_only (encoder_config : Config.t) :
  ResNeXt50.default_config encoder_config
    = Config.set "body/encoder/blocks/groups" (VInt 32)
                 (ResNet50.default_config encoder_config) /\
  Config.get "body/encoder/blocks/groups"
             (ResNeXt50.default_config encoder_config) = Some (VInt 32) /\
  Config.get "body/encoder/blocks/groups"
             (ResNet50.default_config encoder_config)
    = Config.get "body/encoder/blocks/groups" encoder_config /\
  forall path : string,
    path <> "body/encoder/blocks/groups"%string ->
    Config.get path (ResNeXt50.default_config encoder_config)
      = Config.get path (ResNet50.default_config encoder_config).
Proof.
  split; [reflexivity |]. split; [apply config_set_eq |].
  split; [apply resnet50_leaves_groups |].
  intros path Hne. apply config_set_ne. congruence.
Qed.


(** ** DropBlock: float32 arithmetic *)


(** ** [_dropblock] before it samples *)

Section Plan.
Import DropBlock.
Context (inputs : tensor) (dropout_rate : float32) (data_format : string).

Lemma resolve_block_size_ok (block_size : block_size_t) (n : nat) (l : list Z) :
  resolve_block_size block_size n = Ok l ->
  length l = n /\
  ((exists b, block_size = BSInt b /\ l = repeat b n) \/ block_size = BSTuple l).
Proof.
  destruct block_size as [b | t | q | l' |]; simpl; try discriminate.
  - intros [= <-]. split; [apply repeat_length |]. left. now exists b.
  - destruct (length t =? n)%nat eqn:E; simpl; [| discriminate].
    intros [= <-]. apply Nat.eqb_eq in E. split; [exact E |]. now right.
Qed.

Lemma resolve_block_size_raise (block_size : block_size_t) (n : nat) (e : exn) :
  resolve_block_size block_size n = Raise e ->
  (is_int block_size = false /\ is_tuple block_size = false /\
   e = ValueError "block_size should be int or tuple!") \/
  (exists t, block_size = BSTuple t /\ length t <> n /\
   e = ValueError
     "Length of `block_size` should be the same as spatial dimensions of input.").
Proof.
  destruct block_size as [b | t | q | l' |]; simpl;
    try discriminate; try (intros [= <-]; left; repeat split).
  destruct (length t =? n)%nat eqn:E; simpl; [discriminate |].
  intros [= <-]. right. exists t. apply Nat.eqb_neq in E. repeat split. exact E.
Qed.

Lemma make_plan_inv (block_size : block_size_t) (p : plan) :
  make_plan inputs dropout_rate block_size data_format = Ok p ->
  let sd := spatial_dims (shape inputs) data_format in
  exists requested,
    resolve_block_size block_size (length sd) = Ok requested /\
    p_block_size p = requested /\
    p_block_size_tf p = map (fun b => Z.max b 1) (zip_with Z.min requested sd) /\
    p_inner_area p = zip_with (fun s b => s - b + 1) sd (p_block_size_tf p) /\
    p_gamma p =
      fdiv (fdiv (fmul dropout_rate (reduce_prod (map to_float sd)))
                 (reduce_prod (map to_float (p_block_size_tf p))))
           (reduce_prod (map to_float (p_inner_area p))) /\
    p_pool_size p = requested /\
    p_strides p = repeat 1 (length sd).
Proof.
  intros Hp sd. unfold make_plan in Hp. bind_inv Hp.
  injection Hp as <-. exists x. simpl. repeat split. exact Hx.
Qed.

Lemma make_plan_raise (block_size : block_size_t) (e : exn) :
  make_plan inputs dropout_rate block_size data_format = Raise e ->
  resolve_block_size block_size
    (length (spatial_dims (shape inputs) data_format)) = Raise e.
Proof.
  unfold make_plan.
  destruct (resolve_block_size _ _) as [l | e']; simpl; [discriminate |].
  congruence.
Qed.

End Plan.

(** ** [dropblock] *)

Section DropBlockFacts.
Import DropBlock.
Context (mode : exec_mode) (noise : list Z -> float32).
Context (inputs : tensor) (dropout_rate : float32) (block_size : block_size_t).
Context (is_training : bool) (data_format : string) (seed : option Z).

Lemma dropblock_active :
  inactive dropout_rate is_training = false ->
  dropblock mode noise inputs dropout_rate block_size is_training data_format seed
  = _dropblock noise inputs dropout_rate block_size seed data_format.
Proof.
  intros Hi. unfold dropblock, tf_cond. rewrite Hi.
  destruct mode; simpl; [| reflexivity].
  destruct (_dropblock _ _ _ _ _ _); reflexivity.
Qed.



Lemma run_dropblock_active (out : tensor) (log : list draw) :
  inactive dropout_rate is_training = false ->
  run (dropblock mode noise inputs dropout_rate block_size is_training
                 data_format seed) = Ok (out, log) ->
  exists p,
    make_plan inputs dropout_rate block_size data_format = Ok p /\
    log = [{| d_probs := p_gamma p;
              d_shape := p_sampling_mask_shape p;
              d_seed := seed |}] /\
    out = apply_mask inputs
            (kept_mask p {| shape := p_sampling_mask_shape p; at_ := noise |}
                       data_format).
Proof.
  intros Hi Hr. rewrite (dropblock_active Hi) in Hr.
  unfold run, _dropblock in Hr.
  destruct (make_plan inputs dropout_rate block_size data_format) as [p | e];
    simpl in Hr; [| discriminate].
  injection Hr as <- <-. exists p. repeat split.
Qed.

End DropBlockFacts.

Section DropBlockClaims.
Import DropBlock.
Context (mode : exec_mode) (noise : list Z -> float32).
Context (inputs : tensor) (dropout_rate : float32) (block_size : block_size_t).
Context (is_training : bool) (data_format : string) (seed : option Z).


(** C7. When dropout is active, [dropblock] raises the [ValueError] of line
    66 exactly when [block_size] is neither an int nor a tuple, and the
    [ValueError] of line 63 exactly when it is a tuple whose length is not
    the number of spatial dimensions; either is raised before anything is
    sampled. Whenever [dropblock] returns, [block_size] was an int or a
    tuple of that length and is used as given: the int repeated per
    dimension, or the tuple itself. *)
Theorem block_size_errors :
  inactive dropout_rate is_training = false ->
  (dropblock mode noise inputs dropout_rate block_size is_training
             data_format seed
   = Raise (ValueError "block_size should be int or tuple!")
   <-> (is_int block_size = false /\ is_tuple block_size = false))
  /\ (dropblock mode noise inputs dropout_rate block_size is_training
                data_format seed
      = Raise (ValueError
          "Length of `block_size` should be the same as spatial dimensions of input.")
      <-> exists t, block_size = BSTuple t /\
                    length t <> length (spatial_dims (shape inputs) data_format))
  /\ (forall m,
        dropblock mode noise inputs dropout_rate block_size is_training
                  data_format seed = Ok m ->
        exists p,
          make_plan inputs dropout_rate block_size data_format = Ok p /\
          length (p_block_size p)
            = length (spatial_dims (shape inputs) data_format) /\
          ((exists b, block_size = BSInt b /\
              p_block_size p
              = repeat b (length (spatial_dims (shape inputs) data_format)))
           \/ block_size = BSTuple (p_block_size p))).
Proof.
  intros Hi. rewrite (dropblock_active mode noise inputs dropout_rate
                        block_size is_training data_format seed Hi).
  unfold _dropblock.
  destruct (make_plan inputs dropout_rate block_size data_format)
    as [p | e0] eqn:Hp; simpl.
  - destruct (make_plan_inv _ _ _ _ _ Hp) as (req & Hreq & Ebs & _).
    destruct (resolve_block_size_ok _ _ _ Hreq) as (Hlen & Hshape).
    split; [| split].
    + split; [discriminate |].
      intros (Hint & Htup).
      destruct Hshape as [(b & -> & _) | ->]; discriminate.
    + split; [discriminate |].
      intros (t & -> & Hne). simpl in Hreq.
      destruct (length t =? _)%nat eqn:E; simpl in Hreq; [| discriminate].
      apply Nat.eqb_eq in E. contradiction.
    + intros m _. exists p. split; [reflexivity |].
      rewrite Ebs. split; [exact Hlen | exact Hshape].
  - apply make_plan_raise in Hp.
    destruct (resolve_block_size_raise _ _ _ Hp)
      as [(Hint & Htup & ->) | (t & -> & Hne & ->)].
    + split; [| split].
      * split; [intros _; now split | reflexivity].
      * split; [discriminate |].
        intros (t & -> & _). discriminate Htup.
      * intros m Hm. discriminate Hm.
    + split; [| split].
      * split; [discriminate |]. intros (_ & Htup). discriminate Htup.
      * split; [intros _; now exists t | reflexivity].
      * intros m Hm. discriminate Hm.
Qed.

End DropBlockClaims.

(** ** Block sizes and the sampling probability *)

Lemma clamp_zip (requested sd : list Z) :
  map (fun b => Z.max b 1) (zip_with Z.min requested sd)
  = zip_with (fun b d => Z.max (Z.min b d) 1) requested sd.
Proof.
  revert sd. induction requested as [| b requested IH]; intros [| d sd];
    simpl; try reflexivity.
  now rewrite IH.
Qed.

Section BlockSize.
Import DropBlock.
Context (inputs : tensor) (dropout_rate : float32) (block_size : block_size_t).
Context (data_format : string).

(** What the plan holds, in terms of [requested], the block size per
    spatial dimension after lines 58-66. *)
Lemma plan_block_sizes (p : plan) :
  make_plan inputs dropout_rate block_size data_format = Ok p ->
  exists requested : list Z,
    resolve_block_size block_size
      (length (spatial_dims (shape inputs) data_format)) = Ok requested /\
    length requested = length (spatial_dims (shape inputs) data_format) /\
    p_block_size_tf p
      = zip_with (fun b d => Z.max (Z.min b d) 1) requested
                 (spatial_dims (shape inputs) data_format) /\
    (forall (i : nat) (b d : Z),
        requested !! i = Some b ->
        spatial_dims (shape inputs) data_format !! i = Some d ->
        1 <= d ->
        exists e, p_block_size_tf p !! i = Some e /\
                  1 <= e <= d /\
                  (b < 1 -> e = 1) /\
                  (1 <= b <= d -> e = b) /\
                  (d < b -> e = d)) /\
    p_inner_area p
      = zip_with (fun d e => d - e + 1)
                 (spatial_dims (shape inputs) data_format) (p_block_size_tf p) /\
    p_gamma p
      = fdiv (fdiv (fmul dropout_rate
                      (reduce_prod
                         (map to_float (spatial_dims (shape inputs) data_format))))
                   (reduce_prod (map to_float (p_block_size_tf p))))
             (reduce_prod (map to_float (p_inner_area p))) /\
    p_pad_shape p
      = (if channels_first data_format
         then [(0, 0)] ++ [(0, 0)]
              ++ map (fun e => ((e - 1) / 2, e - 1 - (e - 1) / 2)) (p_block_size_tf p)
         else [(0, 0)]
              ++ map (fun e => ((e - 1) / 2, e - 1 - (e - 1) / 2)) (p_block_size_tf p)
              ++ [(0, 0)]) /\
    p_pool_size p = requested.
Proof.
  intros Hp.
  destruct (make_plan_inv _ _ _ _ _ Hp)
    as (req & Hreq & _ & Etf & Eia & Eg & Epool & _).
  destruct (resolve_block_size_ok _ _ _ Hreq) as (Hlen & _).
  rewrite clamp_zip in Etf.
  exists req. repeat split; try assumption.
  - intros i b d Hb Hd Hpos. rewrite Etf, lookup_zip_with, Hb, Hd. simpl.
    eexists. split; [reflexivity |]. lia.
  - unfold make_plan in Hp. rewrite Hreq in Hp. simpl in Hp.
    injection Hp as <-. simpl.
    assert (Epads : forall l : list Z,
      combine (map (fun b => (b - 1) / 2) l)
              (zip_with (fun b l0 => b - 1 - l0) l (map (fun b => (b - 1) / 2) l))
      = map (fun e => ((e - 1) / 2, e - 1 - (e - 1) / 2)) l).
    { induction l as [| e l IH]; simpl; [reflexivity | now rewrite IH]. }
    rewrite Epads. destruct (channels_first data_format); reflexivity.
Qed.

End BlockSize.

Section Active.
Import DropBlock.
Context (mode : exec_mode) (noise : list Z -> float32).
Context (inputs : tensor) (dropout_rate : float32) (block_size : block_size_t).
Context (is_training : bool) (data_format : string) (seed : option Z).

(** C6, as amended. When dropout is active and [requested] is the block
    size per spatial dimension after lines 58-66, the block size behind the
    seed grid (the shape of the draw), the sampling probability and the zero
    padding is [max(min(requested, extent), 1)] per dimension, which for an
    extent of at least 1 is the requested value clamped to [1, extent],
    hence the extent itself when the request exceeds it; the window of the
    max pooling is [requested] as given, not clamped. *)
Theorem effective_block_size (out : tensor) (log : list draw) :
  inactive dropout_rate is_training = false ->
  run (dropblock mode noise inputs dropout_rate block_size is_training
                 data_format seed) = Ok (out, log) ->
  exists (p : plan) (requested : list Z),
    resolve_block_size block_size
      (length (spatial_dims (shape inputs) data_format)) = Ok requested /\
    length requested = length (spatial_dims (shape inputs) data_format) /\
    p_block_size_tf p
      = zip_with (fun b d => Z.max (Z.min b d) 1) requested
                 (spatial_dims (shape inputs) data_format) /\
    (forall (i : nat) (b d : Z),
        requested !! i = Some b ->
        spatial_dims (shape inputs) data_format !! i = Some d ->
        1 <= d ->
        exists e, p_block_size_tf p !! i = Some e /\
                  1 <= e <= d /\
                  (b < 1 -> e = 1) /\
                  (1 <= b <= d -> e = b) /\
                  (d < b -> e = d)) /\
    p_inner_area p
      = zip_with (fun d e => d - e + 1)
                 (spatial_dims (shape inputs) data_format) (p_block_size_tf p) /\
    p_sampling_mask_shape p
      = (if channels_first data_format
         then [1] ++ channels (shape inputs) data_format ++ p_inner_area p
         else [1] ++ p_inner_area p ++ channels (shape inputs) data_format) /\
    p_gamma p
      = fdiv (fdiv (fmul dropout_rate
                      (reduce_prod
                         (map to_float (spatial_dims (shape inputs) data_format))))
                   (reduce_prod (map to_float (p_block_size_tf p))))
             (reduce_prod (map to_float (p_inner_area p))) /\
    p_pad_shape p
      = (if channels_first data_format
         then [(0, 0)] ++ [(0, 0)]
              ++ map (fun e => ((e - 1) / 2, e - 1 - (e - 1) / 2)) (p_block_size_tf p)
         else [(0, 0)]
              ++ map (fun e => ((e - 1) / 2, e - 1 - (e - 1) / 2)) (p_block_size_tf p)
              ++ [(0, 0)]) /\
    p_pool_size p = requested /\
    log = [{| d_probs := p_gamma p;
              d_shape := p_sampling_mask_shape p;
              d_seed := seed |}] /\
    out = apply_mask inputs
            (one_minus
               (max_pooling
                  (tf_pad {| shape := p_sampling_mask_shape p; at_ := noise |}
                          (p_pad_shape p))
                  (p_pool_size p) (p_strides p) data_format)).
Proof.
  intros Hi Hr.
  destruct (run_dropblock_active mode noise inputs dropout_rate block_size
              is_training data_format seed out log Hi Hr)
    as (p & Hp & Hlog & Hout).
  destruct (plan_block_sizes inputs dropout_rate block_size data_format p Hp)
    as (req & Hreq & Hlen & Etf & Hclamp & Eia & Eg & Epad & Epool).
  exists p, req.
  do 5 (split; [assumption |]).
  split.
  { unfold make_plan in Hp. rewrite Hreq in Hp. simpl in Hp.
    injection Hp as <-. reflexivity. }
  do 3 (split; [assumption |]).
  split; [exact Hlog | exact Hout].
Qed.


End Active.

Section Rescaling.
Import DropBlock.

Lemma fdiv_by_zero (a : float32) (q : Q) :
  Qeq_bool q 0 = true -> fdiv a (Finite q) = NonFinite.
Proof.
  intros Hq. destruct a as [x |]; simpl; [now rewrite Hq | reflexivity].
Qed.

(** C9. Whatever [dropout_rate] strictly between 0 and 1: on a batch of 3x3
    maps with [block_size=3] each seed point is drawn with a probability
    strictly between 0 and 1, and for the draw in which it is set the kept
    mask sums to zero; line 106 divides by that sum all the same, and every
    element of the output is a non-finite value. *)
Theorem rescaling_divides_by_zero (mode : exec_mode) (rate : Q) :
  (0 < rate < 1)%Q ->
  exists p g out log,
    make_plan ones_2x3x3x1 (Finite rate) (BSInt 3) "channels_last" = Ok p /\
    p_gamma p = Finite g /\ (0 < g < 1)%Q /\
    (forall idx, every_seed idx = Finite 1) /\
    feq (reduce_sum
           (kept_mask p {| shape := p_sampling_mask_shape p; at_ := every_seed |}
                      "channels_last"))
        (Finite 0) /\
    run (dropblock mode every_seed ones_2x3x3x1 (Finite rate) (BSInt 3) true
                   "channels_last" None) = Ok (out, log) /\
    log = [{| d_probs := p_gamma p;
              d_shape := p_sampling_mask_shape p;
              d_seed := None |}] /\
    out = apply_mask ones_2x3x3x1
            (kept_mask p {| shape := p_sampling_mask_shape p; at_ := every_seed |}
                       "channels_last") /\
    forall idx, at_ out idx = NonFinite.
Proof.
  intros [Hlo Hhi].
  assert (Hact : inactive (Finite rate) true = false).
  { unfold inactive. simpl.
    destruct (Qeq_bool rate 0) eqn:E; [| reflexivity].
    apply Qeq_bool_iff in E. rewrite E in Hlo. discriminate Hlo. }
  eexists. eexists. eexists. eexists.
  split; [reflexivity |].
  split.
  { simpl. reflexivity. }
  split.
  { assert (E : (rate * (inject_Z 3 * (inject_Z 3 * 1))
                 / (inject_Z (Z.max (Z.min 3 3) 1)
                    * (inject_Z (Z.max (Z.min 3 3) 1) * 1))
                 / (inject_Z (3 - Z.max (Z.min 3 3) 1 + 1)
                    * (inject_Z (3 - Z.max (Z.min 3 3) 1 + 1) * 1))
                 == rate)%Q).
    { change (inject_Z (Z.max (Z.min 3 3) 1)) with (inject_Z 3).
      change (inject_Z (3 - Z.max (Z.min 3 3) 1 + 1)) with (inject_Z 1).
      change (inject_Z 3) with 3%Q. change (inject_Z 1) with 1%Q.
      field. }
    rewrite E. split; assumption. }
  split; [reflexivity |].
  split.
  { vm_compute. reflexivity. }
  split.
  { rewrite (dropblock_active _ _ _ _ _ _ _ _ Hact). reflexivity. }
  split; [reflexivity |].
  split; [reflexivity |].
  intros idx. apply fdiv_by_zero. vm_compute. reflexivity.
Qed.
End Rescaling.

(** ** Concrete runs *)


Lemma effective_block_size_witness :
  DropBlock.inactive (DropBlock.Finite (1 # 2)) true = false /\
  exists out log p,
    DropBlock.run
      (DropBlock.dropblock DropBlock.GraphMode DropBlock.every_seed
         DropBlock.ones_2x3x3x1 (DropBlock.Finite (1 # 2)) (DropBlock.BSInt 5)
         true "channels_last" None) = Ok (out, log) /\
    DropBlock.p_block_size_tf p = [3; 3] /\
    DropBlock.p_inner_area p = [1; 1] /\
    DropBlock.p_pad_shape p = [(0, 0); (1, 1); (1, 1); (0, 0)] /\
    DropBlock.p_pool_size p = [5; 5] /\
    map DropBlock.d_shape log = [[1; 1; 1; 1]].
Proof.
  split; [reflexivity |].
  eexists. eexists.
  destruct (effective_block_size DropBlock.GraphMode DropBlock.every_seed
              DropBlock.ones_2x3x3x1 (DropBlock.Finite (1 # 2))
              (DropBlock.BSInt 5) true "channels_last" None _ _
              eq_refl eq_refl)
    as (p & requested & Hreq & _ & Etf & _ & Eia & Eshape & _ & Epad & Epool & _).
  exists p. split; [reflexivity |].
  injection Hreq as <-.
  rewrite Epool, Epad, Eia, Etf. repeat split.
Defined.

Lemma block_size_errors_witness :
  DropBlock.inactive (DropBlock.Finite (1 # 2)) true = false /\
  DropBlock.dropblock DropBlock.GraphMode DropBlock.every_seed
    DropBlock.ones_2x3x3x1 (DropBlock.Finite (1 # 2))
    (DropBlock.BSTuple [3]) true "channels_last" None
  = Raise (ValueError
      "Length of `block_size` should be the same as spatial dimensions of input.").
Proof.
  split; [reflexivity |].
  destruct (block_size_errors DropBlock.GraphMode DropBlock.every_seed
              DropBlock.ones_2x3x3x1 (DropBlock.Finite (1 # 2))
              (DropBlock.BSTuple [3]) true "channels_last" None eq_refl)
    as (_ & (_ & Hraise) & _).
  apply Hraise. exists [3]. split; [reflexivity |]. simpl. lia.
Defined.


Lemma rescaling_divides_by_zero_witness :
  (0 < 1 # 2 < 1)%Q /\
  exists out log,
    DropBlock.run
      (DropBlock.dropblock DropBlock.EagerMode DropBlock.every_seed
         DropBlock.ones_2x3x3x1 (DropBlock.Finite (1 # 2)) (DropBlock.BSInt 3)
         true "channels_last" None) = Ok (out, log) /\
    forall idx, DropBlock.at_ out idx = DropBlock.NonFinite.
Proof.
  split; [split; reflexivity |].
  destruct (rescaling_divides_by_zero DropBlock.EagerMode (1 # 2))
    as (p & g & out & log & _ & _ & _ & _ & _ & Hrun & _ & _ & Hout).
  { split; reflexivity. }
  exists out, log. split; [exact Hrun | exact Hout].
Defined.

(** C6 as stated fails for the pooling window: with dropout active on 3x3
    maps and [block_size=5], the clamped block size is [[3, 3]] and
    [max_pooling] is called with [pool_size = [5, 5]]. *)
Lemma effective_block_size_counterexample :
  DropBlock.inactive (DropBlock.Finite (1 # 2)) true = false /\
  exists p,
    DropBlock.make_plan DropBlock.ones_2x3x3x1 (DropBlock.Finite (1 # 2))
      (DropBlock.BSInt 5) "channels_last" = Ok p /\
    DropBlock.dropblock DropBlock.GraphMode DropBlock.every_seed
      DropBlock.ones_2x3x3x1 (DropBlock.Finite (1 # 2)) (DropBlock.BSInt 5)
      true "channels_last" None
    = Ok (DropBlock.run_plan DropBlock.every_seed p DropBlock.ones_2x3x3x1
            None "channels_last") /\
    DropBlock.spatial_dims (DropBlock.shape DropBlock.ones_2x3x3x1)
      "channels_last" = [3; 3] /\
    DropBlock.p_block_size_tf p = [3; 3] /\
    DropBlock.p_pool_size p = [5; 5] /\
    DropBlock.p_pool_size p <> [3; 3].
Proof.
  split; [reflexivity |].
  eexists. repeat (split; [reflexivity |]).
  simpl. intros E. discriminate E.
Qed.



(** * Further properties of [ResBlock.__init__] *)

Section InitOutcome.
Context `{Host}.
Import ResBlock.

(** X1. With [filters] given as an int or a list of ints (no string to
    evaluate), [__init__] gets as far as calling [ConvBlock] exactly when
    the resolved filters list is not empty and, if [downsample] is on, the
    resolved strides list is not empty either; and when it fails, it fails
    with an [IndexError]. *)
Theorem init_ok_iff (a : kwargs) (v : int_or_list) :
  filters a = FiltersVal v ->
  ((exists c, __init__ a = Ok c) <->
   (broadcast v (num_convs (layout a)) <> [] /\
    (truthy (downsample a) = true ->
     broadcast (strides a) (num_convs (layout a)) <> []))) /\
  (forall e, __init__ a = Raise e -> e = IndexError).
Proof.
  intros Hf.
  unfold __init__, expanded, resolve, eval_filters, apply_downsample,
    apply_bottleneck, call_ConvBlock.
  rewrite Hf. simpl.
  destruct (truthy (downsample a)) eqn:Hd; simpl;
    destruct (broadcast (strides a) (num_convs (layout a)))
      as [| s0 rest] eqn:Es; simpl;
    destruct (truthy (bottleneck a)) eqn:Hb; simpl;
    destruct (broadcast v (num_convs (layout a))) as [| f0 fs] eqn:Ef; simpl;
    (split;
     [ split;
       [ intros (c & Hc); try discriminate Hc;
         repeat split; intros; discriminate
       | intros (Hne & Hs);
         try (exfalso; apply Hne; reflexivity);
         try (exfalso; apply Hs; reflexivity);
         eexists; reflexivity ]
     | intros e He; try discriminate He; injection He as <-; reflexivity ]).
Qed.

(** X2. A layout without any convolution letter is rejected with
    [IndexError] whenever [filters] is a single int. *)
Theorem no_convolution_raises (a : kwargs) (f : Z) :
  num_convs (layout a) = 0%nat ->
  filters a = FiltersVal (PInt f) ->
  __init__ a = Raise IndexError.
Proof.
  intros Hn Hf.
  unfold __init__, expanded, resolve, eval_filters, apply_downsample,
    apply_bottleneck, call_ConvBlock.
  rewrite Hf, Hn. simpl.
  destruct (truthy (downsample a)); simpl.
  - destruct (strides a) as [z | l]; simpl; [reflexivity |].
    destruct l; simpl; [reflexivity |].
    destruct (truthy (bottleneck a)); reflexivity.
  - destruct (truthy (bottleneck a)); reflexivity.
Qed.

End InitOutcome.

(** ** Products of strides *)

Lemma prod_app (l1 l2 : list Z) :
  fold_right Z.mul 1 (l1 ++ l2) = fold_right Z.mul 1 l1 * fold_right Z.mul 1 l2.
Proof.
  induction l1 as [| x l1 IH]; simpl; [lia |].
  rewrite IH. lia.
Qed.

Lemma prod_around (flag : flag_t) (l : list Z) :
  fold_right Z.mul 1 (ResBlock.around flag l) = fold_right Z.mul 1 l.
Proof.
  unfold ResBlock.around. destruct (truthy flag); [| reflexivity].
  rewrite !prod_app. simpl. lia.
Qed.

Lemma np_prod_around (flag : flag_t) (l : list Z) :
  np_prod (ResBlock.around flag l) = np_prod l.
Proof.
  unfold np_prod. now rewrite prod_around.
Qed.

Lemma last_cons_default {A : Type} (x d : A) (l : list A) :
  List.last (x :: l) d = List.last l x.
Proof.
  revert x d. induction l as [| y l IH]; intros x d; [reflexivity |].
  change (List.last (x :: y :: l) d) with (List.last (y :: l) d).
  now rewrite (IH y d), (IH y x).
Qed.

Section CallShape.
Context `{Host}.
Import ResBlock.

Lemma call_side_branch (a : kwargs) (st : locals) (c : ConvBlock_call) :
  call_ConvBlock a st = Ok c ->
  l_filters st <> [] /\
  sb_layout (cb_side_branch c) = "c"%string /\
  sb_filters (cb_side_branch c) = List.last (l_filters st) 0.
Proof.
  unfold call_ConvBlock.
  destruct (l_filters st) as [| f0 fs] eqn:Ef; [discriminate |].
  intros [= <-]. simpl. repeat split; [discriminate |].
  symmetry. apply last_cons_default.
Qed.

(** What [__init__] hands over, in terms of the resolved lists. *)
Lemma init_shape (a : kwargs) (c : ConvBlock_call) :
  __init__ a = Ok c ->
  exists f sd side_d,
    eval_filters a = Ok f /\
    cb_strides c
      = around (bottleneck a) (broadcast (strides a) (num_convs (layout a))) /\
    cb_kernel_size c
      = around (bottleneck a) (broadcast (kernel_size a) (num_convs (layout a))) /\
    sb_strides (cb_side_branch c)
      = np_prod (broadcast (strides a) (num_convs (layout a))) /\
    cb_layer_params c
      = {| lp_strides := Some (around (bottleneck a) sd);
           lp_side_branch_strides := Some side_d |}
        :: repeat empty_param (Z.to_nat (n_reps a - 1)) /\
    (truthy (downsample a) = false ->
     sd = broadcast (strides a) (num_convs (layout a)) /\
     side_d = np_prod (broadcast (strides a) (num_convs (layout a)))) /\
    (truthy (downsample a) = true ->
     exists s0 rest,
       broadcast (strides a) (num_convs (layout a)) = s0 :: rest /\
       sd = s0 * factor 2 (downsample a) :: rest /\
       side_d = np_prod (s0 :: rest) * factor 2 (downsample a)).
Proof.
  intros Hi.
  destruct (init_inv _ _ Hi) as (st0 & st1 & st2 & R0 & R1 & R2 & _ & R3).
  destruct (resolve_inv _ _ R0)
    as (f & Hf & _ & _ & Ek & Es & Esd & _ & Eside & Esided).
  destruct (apply_downsample_frame _ _ _ R1) as (_ & _ & Dk & Ds & _ & Dside & _).
  destruct (apply_bottleneck_around _ _ _ R2) as (Bk & Bs & Bsd & Bside & Bsided).
  destruct (call_ConvBlock_inv _ _ _ R3) as (C1 & _ & _ & C4 & C5 & _ & C7).
  exists f, (l_strides_d st1), (l_side_branch_stride_d st1).
  split; [exact Hf |].
  split; [now rewrite C5, Bs, Ds, Es |].
  split; [now rewrite C4, Bk, Dk, Ek |].
  split; [now rewrite C7, Bside, Dside, Eside, Es |].
  split; [now rewrite C1, Bsd, Bsided |].
  split.
  - intros Hoff. apply (apply_downsample_off _ _ _ Hoff) in R1. subst st1.
    now rewrite Esd, Esided, Es.
  - intros Hon.
    destruct (apply_downsample_on _ _ _ Hon R1)
      as (s0 & rest & D1 & D2 & D3 & _).
    exists s0, rest. rewrite Esd, Es in D1.
    split; [exact D1 |]. split; [exact D2 |].
    now rewrite D3, Esided, Es, D1.
Qed.

End CallShape.

Section SideBranch.
Context `{Host}.
Import ResBlock.

(** X3. The side branch is always the one-letter layout ['c']; its filter
    count is the last entry of the filters handed to [ConvBlock], and its
    stride is [np.prod] of the main-path strides handed to [ConvBlock], the
    two [1]s of a bottleneck included. *)
Theorem side_branch_matches_main_path (a : kwargs) (c : ConvBlock_call) :
  __init__ a = Ok c ->
  sb_layout (cb_side_branch c) = "c"%string /\
  cb_filters c <> [] /\
  sb_filters (cb_side_branch c) = List.last (cb_filters c) 0 /\
  sb_strides (cb_side_branch c) = np_prod (cb_strides c).
Proof.
  intros Hi.
  destruct (init_shape _ _ Hi) as (f & sd & side_d & _ & Es & _ & Eside & _).
  destruct (init_inv _ _ Hi) as (_ & _ & st2 & _ & _ & _ & _ & R3).
  destruct (call_side_branch _ _ _ R3) as (Hne & Hl & Hf).
  destruct (call_ConvBlock_inv _ _ _ R3) as (_ & _ & C3 & _).
  rewrite C3, Es, np_prod_around. repeat split; assumption.
Qed.

(** X4. As long as [np.prod(strides)] does not overflow int64, the
    side-branch stride of the first repetition is the exact product of the
    strides of the first repetition, with or without [downsample] and
    [bottleneck]: main path and side branch shrink the input alike. *)
Theorem first_repetition_side_branch (a : kwargs) (c : ConvBlock_call) :
  - 2 ^ 63 <= fold_right Z.mul 1 (broadcast (strides a) (num_convs (layout a)))
           < 2 ^ 63 ->
  __init__ a = Ok c ->
  exists ss,
    rep_strides c 0 = Some ss /\
    rep_side_branch_strides c 0 = Some (fold_right Z.mul 1 ss).
Proof.
  intros Hrange Hi.
  destruct (init_shape _ _ Hi)
    as (f & sd & side_d & _ & _ & _ & _ & Ep & Hoff & Hon).
  exists (around (bottleneck a) sd).
  unfold rep_strides, rep_side_branch_strides. rewrite Ep. simpl.
  split; [reflexivity |]. f_equal. rewrite prod_around.
  destruct (truthy (downsample a)) eqn:Hd.
  - destruct (Hon eq_refl) as (s0 & rest & E1 & -> & ->).
    rewrite E1 in Hrange. rewrite (np_prod_exact _ Hrange). simpl. lia.
  - destruct (Hoff eq_refl) as (-> & ->). now apply np_prod_exact.
Qed.

(** X5. With [downsample] off, the dictionary of the first repetition only
    repeats the keyword arguments, so every repetition is built with the
    same strides and the same side-branch stride. *)
Theorem no_downsample_repetitions_alike (a : kwargs) (c : ConvBlock_call) :
  truthy (downsample a) = false ->
  __init__ a = Ok c ->
  forall i : nat,
    (i < length (cb_layer_params c))%nat ->
    rep_strides c i = Some (cb_strides c) /\
    rep_side_branch_strides c i = Some (sb_strides (cb_side_branch c)).
Proof.
  intros Hd Hi i Hlt.
  destruct (init_shape _ _ Hi)
    as (f & sd & side_d & _ & Es & _ & Eside & Ep & Hoff & _).
  destruct (Hoff Hd) as (-> & ->).
  unfold rep_strides, rep_side_branch_strides. rewrite Ep in Hlt |- *.
  destruct i as [| i]; simpl.
  - now rewrite Es, Eside.
  - simpl in Hlt. rewrite repeat_length in Hlt.
    rewrite nth_error_repeat_lt by lia. split; reflexivity.
Qed.

(** X6. [n_reps] below 1 (zero or negative) still gives one repetition:
    there are [max(n_reps, 1)] positional dictionaries. *)
Theorem repetitions_count (a : kwargs) (c : ConvBlock_call) :
  __init__ a = Ok c ->
  length (cb_layer_params c) = Z.to_nat (Z.max (n_reps a) 1).
Proof.
  intros Hi.
  destruct (init_shape _ _ Hi) as (f & sd & side_d & _ & _ & _ & _ & Ep & _).
  rewrite Ep. simpl. rewrite repeat_length. lia.
Qed.

End SideBranch.

Section CallLists.
Context `{Host}.
Import ResBlock.

Lemma init_filters_groups (a : kwargs) (c : ConvBlock_call) :
  __init__ a = Ok c ->
  exists f,
    eval_filters a = Ok f /\
    length (cb_filters c)
      = (length (broadcast f (num_convs (layout a)))
         + (if truthy (bottleneck a) then 2 else 0))%nat /\
    cb_groups c
      = (if truthy (bottleneck a)
         then [PInt 1] ++ repeat (groups a) (num_convs (layout a)) ++ [PInt 1]
         else repeat (groups a) (num_convs (layout a))) /\
    cb_layout c
      = ("B" ++ (if truthy (bottleneck a)
                 then "cna" ++ layout a ++ "cna" else layout a) ++ op a)%string.
Proof.
  intros Hi.
  destruct (init_inv _ _ Hi) as (st0 & st1 & st2 & R0 & R1 & R2 & _ & R3).
  destruct (resolve_inv _ _ R0) as (f & Hf & El & Efl & _ & _ & _ & Eg & _).
  destruct (apply_downsample_frame _ _ _ R1) as (Dl & Dfl & _ & _ & Dg & _).
  destruct (call_ConvBlock_inv _ _ _ R3) as (_ & C2 & C3 & _ & _ & C6 & _).
  exists f. split; [exact Hf |]. rewrite C2, C3, C6.
  destruct (truthy (bottleneck a)) eqn:Hb.
  - destruct (apply_bottleneck_on _ _ _ Hb R2)
      as (f0 & rest & _ & B1 & B2 & _ & _ & _ & B6 & _).
    rewrite B1, B2, B6, Dfl, Dl, Dg, Efl, El, Eg.
    repeat split. simpl. rewrite length_app. simpl. lia.
  - apply (apply_bottleneck_off _ _ _ Hb) in R2. subst st2.
    rewrite Dfl, Dl, Dg, Efl, El, Eg. repeat split. lia.
Qed.

Lemma around_length (flag : flag_t) (l : list Z) :
  length (around flag l)
  = (length l + (if truthy flag then 2 else 0))%nat.
Proof.
  unfold around. destruct (truthy flag); simpl; [| lia].
  rewrite length_app. simpl. lia.
Qed.

(** X7. With the bottleneck on, the two added convolutions are plain 1x1
    convolutions whatever the other arguments: kernel size 1, stride 1 in
    every repetition (also under [downsample]) and 1 group (also under
    [groups=32]). *)
Theorem bottleneck_convolutions_plain (a : kwargs) (c : ConvBlock_call) :
  truthy (bottleneck a) = true ->
  __init__ a = Ok c ->
  cb_layout c = ("B" ++ ("cna" ++ layout a ++ "cna") ++ op a)%string /\
  cb_kernel_size c
    = [1] ++ broadcast (kernel_size a) (num_convs (layout a)) ++ [1] /\
  cb_strides c = [1] ++ broadcast (strides a) (num_convs (layout a)) ++ [1] /\
  cb_groups c
    = [PInt 1] ++ repeat (groups a) (num_convs (layout a)) ++ [PInt 1] /\
  exists sd,
    length sd = length (broadcast (strides a) (num_convs (layout a))) /\
    rep_strides c 0 = Some ([1] ++ sd ++ [1]).
Proof.
  intros Hb Hi.
  destruct (init_shape _ _ Hi)
    as (f & sd & side_d & _ & Es & Ek & _ & Ep & Hoff & Hon).
  destruct (init_filters_groups _ _ Hi) as (f' & _ & _ & Eg & El).
  unfold around in Es, Ek, Ep. rewrite Hb in Es, Ek, Ep, Eg, El.
  repeat split; try assumption.
  exists sd. split.
  - destruct (truthy (downsample a)) eqn:Hd.
    + destruct (Hon eq_refl) as (s0 & rest & -> & -> & _). reflexivity.
    + destruct (Hoff eq_refl) as (-> & _). reflexivity.
  - unfold rep_strides. now rewrite Ep.
Qed.

(** X8. When [filters] (after [eval]), [kernel_size] and [strides] fit the
    layout and the merge operator [op] holds no convolution letter, the
    filters, kernel sizes, strides and groups handed to [ConvBlock], and the
    strides of the first repetition, have one entry per convolution letter
    of the layout string handed to [ConvBlock]. *)
Theorem call_lists_match_layout (a : kwargs) (f : int_or_list) (c : ConvBlock_call) :
  eval_filters a = Ok f ->
  fits f (num_convs (layout a)) = true ->
  fits (kernel_size a) (num_convs (layout a)) = true ->
  fits (strides a) (num_convs (layout a)) = true ->
  num_convs (op a) = 0%nat ->
  __init__ a = Ok c ->
  length (cb_filters c) = num_convs (cb_layout c) /\
  length (cb_kernel_size c) = num_convs (cb_layout c) /\
  length (cb_strides c) = num_convs (cb_layout c) /\
  length (cb_groups c) = num_convs (cb_layout c) /\
  exists sd, rep_strides c 0 = Some sd /\ length sd = num_convs (cb_layout c).
Proof.
  intros Hf Ff Fk Fs Hop Hi.
  destruct (init_shape _ _ Hi)
    as (f1 & sd & side_d & _ & Es & Ek & _ & Ep & Hoff & Hon).
  destruct (init_filters_groups _ _ Hi) as (f2 & Hf2 & Efl & Eg & El).
  rewrite Hf in Hf2. injection Hf2 as <-.
  assert (Hn : num_convs (cb_layout c)
               = (num_convs (layout a)
                  + (if truthy (bottleneck a) then 2 else 0))%nat).
  { rewrite El, !num_convs_app, Hop. change (num_convs "B") with 0%nat.
    destruct (truthy (bottleneck a));
      [rewrite num_convs_bottleneck |]; lia. }
  assert (Hsd : length sd = num_convs (layout a)).
  { destruct (truthy (downsample a)) eqn:Hd.
    - destruct (Hon eq_refl) as (s0 & rest & E1 & -> & _).
      rewrite <- (broadcast_length _ _ Fs), E1. reflexivity.
    - destruct (Hoff eq_refl) as (-> & _). now apply broadcast_length. }
  rewrite Hn, Efl, Es, Ek, Eg, !around_length, !broadcast_length by assumption.
  repeat split.
  - destruct (truthy (bottleneck a)); simpl;
      [rewrite length_app; simpl |]; rewrite repeat_length; lia.
  - exists (around (bottleneck a) sd). unfold rep_strides. rewrite Ep. simpl.
    split; [reflexivity |]. now rewrite around_length, Hsd.
Qed.

(** X9. The block of a ResNet50 stage with [f] filters resolves to the
    three convolutions 1x1, 3x3, 1x1 with [f], [f] and [4 f] filters and a
    side branch of [4 f] filters; [groups] reaches only the 3x3
    convolution, and [downsample] puts its factor on the 3x3 convolution
    of the first repetition and on the first side branch. *)
Theorem stage_block_resolution (x : tensor_t) (f reps : Z) (down : flag_t)
    (g : int_or_list) :
  exists c,
    __init__ (stage_block x f down g reps) = Ok c /\
    cb_layout c = "Bcnacnacna+"%string /\
    cb_filters c = [f; f; f * 4] /\
    cb_kernel_size c = [1; 3; 1] /\
    cb_strides c = [1; 1; 1] /\
    cb_groups c = [PInt 1; g; PInt 1] /\
    sb_filters (cb_side_branch c) = f * 4 /\
    sb_strides (cb_side_branch c) = 1 /\
    rep_strides c 0
      = Some [1; if truthy down then factor 2 down else 1; 1] /\
    rep_side_branch_strides c 0
      = Some (if truthy down then factor 2 down else 1).
Proof.
  assert (Hp : np_prod [1] = 1) by reflexivity.
  unfold __init__, expanded, resolve, apply_downsample.
  cbn [eval_filters stage_block filters layout strides kernel_size groups
       downsample bottleneck Py.bind].
  change (num_convs "cna") with 1%nat.
  cbn [broadcast repeat l_strides_d]. rewrite Hp.
  destruct (truthy down); eexists; (split; [reflexivity |]);
    cbn; repeat split; repeat f_equal; lia.
Qed.

End CallLists.

(** * Further properties of the registry *)

(** Unfold a chain of [default_config]s down to inserts into the Encoder
    configuration, with every key a literal. *)
Ltac unfold_configs :=
  unfold ResNeXt18.default_config, ResNeXt34.default_config,
    ResNeXt50.default_config, ResNeXt101.default_config,
    ResNeXt152.default_config, ResNet18.default_config,
    ResNet101.default_config, ResNet152.default_config,
    ResNet50.default_config, ResNet34.default_config,
    ResNet.default_config;
  unfold Config.iadd, Config.get, Config.set;
  cbn [fold_left fst snd String.append].

Ltac lookup_literal :=
  repeat (rewrite lookup_insert_eq
          || rewrite lookup_insert_ne by discriminate).

(** X10. Each of ResNeXt18, ResNeXt34, ResNeXt101 and ResNeXt152 is its
    ResNet with the leaf ['body/encoder/blocks/groups'] set to 32: that
    ResNet never writes the leaf, and every other leaf path reads the same
    in both. *)
Theorem resnext_overrides_groups_only (encoder_config : Config.t) :
  Forall (fun pair : (Config.t -> Config.t) * (Config.t -> Config.t) =>
            fst pair encoder_config
              = Config.set "body/encoder/blocks/groups" (VInt 32)
                           (snd pair encoder_config) /\
            Config.get "body/encoder/blocks/groups" (fst pair encoder_config)
              = Some (VInt 32) /\
            Config.get "body/encoder/blocks/groups" (snd pair encoder_config)
              = Config.get "body/encoder/blocks/groups" encoder_config /\
            forall path : string,
              path <> "body/encoder/blocks/groups"%string ->
              Config.get path (fst pair encoder_config)
                = Config.get path (snd pair encoder_config))
         [(ResNeXt18.default_config, ResNet18.default_config);
          (ResNeXt34.default_config, ResNet34.default_config);
          (ResNeXt101.default_config, ResNet101.default_config);
          (ResNeXt152.default_config, ResNet152.default_config)].
Proof.
  repeat constructor; cbn [fst snd];
    try (apply config_set_eq);
    try (intros path Hne; apply config_set_ne; congruence);
    unfold_configs; lookup_literal; reflexivity.
Qed.

Lemma resnet_blocks (encoder_config : Config.t) :
  Config.get "body/encoder/blocks/n_reps" (ResNet.default_config encoder_config)
    = Some (VList [VInt 1; VInt 1; VInt 1; VInt 1]) /\
  Config.get "body/encoder/blocks/layout" (ResNet.default_config encoder_config)
    = Some (VStr "cnacna") /\
  Config.get "body/encoder/blocks/bottleneck"
             (ResNet.default_config encoder_config)
    = Some (VBool false).
Proof.
  repeat split; unfold_configs; lookup_literal; reflexivity.
Qed.

(** X11. Whatever the Encoder defaults hold, the registry fixes depth and
    block type per class: [n_reps], [layout] and [bottleneck] of the six
    ResNets, which the five ResNeXts inherit unchanged. *)
Theorem registry_table (encoder_config : Config.t) :
  map (fun cfg : Config.t -> Config.t =>
         (Config.get "body/encoder/blocks/n_reps" (cfg encoder_config),
          Config.get "body/encoder/blocks/layout" (cfg encoder_config),
          Config.get "body/encoder/blocks/bottleneck" (cfg encoder_config)))
      [ResNet.default_config;
       ResNet18.default_config; ResNeXt18.default_config;
       ResNet34.default_config; ResNeXt34.default_config;
       ResNet50.default_config; ResNeXt50.default_config;
       ResNet101.default_config; ResNeXt101.default_config;
       ResNet152.default_config; ResNeXt152.default_config]
  = [(Some (VList [VInt 1; VInt 1; VInt 1; VInt 1]),
      Some (VStr "cnacna"), Some (VBool false));
     (Some (VList [VInt 2; VInt 2; VInt 2; VInt 2]),
      Some (VStr "cnacna"), Some (VBool false));
     (Some (VList [VInt 2; VInt 2; VInt 2; VInt 2]),
      Some (VStr "cnacna"), Some (VBool false));
     (Some (VList [VInt 3; VInt 4; VInt 6; VInt 3]),
      Some (VStr "cnacna"), Some (VBool false));
     (Some (VList [VInt 3; VInt 4; VInt 6; VInt 3]),
      Some (VStr "cnacna"), Some (VBool false));
     (Some (VList [VInt 3; VInt 4; VInt 6; VInt 3]),
      Some (VStr "cna"), Some (VBool true));
     (Some (VList [VInt 3; VInt 4; VInt 6; VInt 3]),
      Some (VStr "cna"), Some (VBool true));
     (Some (VList [VInt 3; VInt 4; VInt 23; VInt 3]),
      Some (VStr "cna"), Some (VBool true));
     (Some (VList [VInt 3; VInt 4; VInt 23; VInt 3]),
      Some (VStr "cna"), Some (VBool true));
     (Some (VList [VInt 3; VInt 8; VInt 36; VInt 3]),
      Some (VStr "cna"), Some (VBool true));
     (Some (VList [VInt 3; VInt 8; VInt 36; VInt 3]),
      Some (VStr "cna"), Some (VBool true))].
Proof.
  pose proof (resnet_blocks encoder_config) as (Hn & Hl & Hb).
  cbn [map].
  unfold ResNeXt18.default_config, ResNeXt34.default_config,
    ResNeXt50.default_config, ResNeXt101.default_config,
    ResNeXt152.default_config, ResNet18.default_config,
    ResNet101.default_config, ResNet152.default_config,
    ResNet50.default_config, ResNet34.default_config.
  cbn zeta.
  repeat (rewrite config_set_eq
          || rewrite config_set_ne by discriminate).
  now rewrite Hn, Hl, Hb.
Qed.

Lemma resnet_unwritten (encoder_config : Config.t) (path : string) :
  ~ In path ResNet.written_paths ->
  Config.get path (ResNet.default_config encoder_config)
    = Config.get path encoder_config.
Proof.
  intros Hnot. unfold_configs.
  repeat (rewrite lookup_insert_ne;
          [| intros <-; apply Hnot; vm_compute; tauto]).
  reflexivity.
Qed.

Lemma overlap_refl (path : string) : Config.overlap path path = true.
Proof.
  unfold Config.overlap. now rewrite String.eqb_refl.
Qed.

Lemma untouched_not_written (path : string) :
  ResNet.untouched path = true ->
  ~ In path ResNet.written_paths /\ path <> ResNet.groups_path.
Proof.
  unfold ResNet.untouched. intros Hall.
  apply andb_true_iff in Hall. destruct Hall as (_ & Hall).
  rewrite forallb_forall in Hall.
  assert (Hno : forall w,
             In w (ResNet.written_paths ++ [ResNet.groups_path]) -> path <> w).
  { intros w Hw ->. specialize (Hall w Hw).
    rewrite overlap_refl in Hall. discriminate Hall. }
  split.
  - intros Hin. apply (Hno path); [| reflexivity].
    apply in_or_app. now left.
  - apply Hno. apply in_or_app. right. now left.
Qed.

(** X12. A well-formed key path that overlaps none of the nineteen leaf
    paths written by a class of the registry (it is not one of them, no node
    above one and nothing below one) reads in every class as it reads in
    the Encoder defaults. *)
Theorem unwritten_paths_inherited (encoder_config : Config.t) (path : string) :
  ResNet.untouched path = true ->
  Forall (fun cfg : Config.t -> Config.t =>
            Config.get path (cfg encoder_config)
              = Config.get path encoder_config)
         [ResNet.default_config;
          ResNet18.default_config; ResNeXt18.default_config;
          ResNet34.default_config; ResNeXt34.default_config;
          ResNet50.default_config; ResNeXt50.default_config;
          ResNet101.default_config; ResNeXt101.default_config;
          ResNet152.default_config; ResNeXt152.default_config].
Proof.
  intros Hun. destruct (untouched_not_written path Hun) as (Hnot & Hg).
  unfold ResNet.groups_path in Hg.
  assert (Hn : path <> "body/encoder/blocks/n_reps"%string)
    by (intros ->; apply Hnot; vm_compute; tauto).
  assert (Hl : path <> "body/encoder/blocks/layout"%string)
    by (intros ->; apply Hnot; vm_compute; tauto).
  assert (Hb : path <> "body/encoder/blocks/bottleneck"%string)
    by (intros ->; apply Hnot; vm_compute; tauto).
  pose proof (resnet_unwritten encoder_config path Hnot) as Hbase.
  repeat constructor;
    unfold ResNeXt18.default_config, ResNeXt34.default_config,
      ResNeXt50.default_config, ResNeXt101.default_config,
      ResNeXt152.default_config, ResNet18.default_config,
      ResNet101.default_config, ResNet152.default_config,
      ResNet50.default_config, ResNet34.default_config;
    cbn zeta;
    repeat (rewrite config_set_ne by congruence);
    exact Hbase.
Qed.

(** ** [ResNet.build_config] *)

Lemma is_none_set_other (p q : string) (v : pyval) (config : Config.t) :
  p <> q ->
  ResNet.is_none q (Config.set p v config) = ResNet.is_none q config.
Proof.
  intros Hne. unfold ResNet.is_none. now rewrite config_set_ne.
Qed.

Lemma is_none_set_same (p : string) (v : pyval) (config : Config.t) :
  v <> VNone ->
  ResNet.is_none p (Config.set p v config) = false.
Proof.
  intros Hv. unfold ResNet.is_none. rewrite config_set_eq.
  destruct v; congruence.
Qed.

Lemma build_config_get (config : Config.t) (classes : pyval) (path : string) :
  Config.get path (ResNet.build_config config classes)
  = if (String.eqb path "head/units" || String.eqb path "head/filters")%bool
       && ResNet.is_none path config
    then Some classes
    else Config.get path config.
Proof.
  unfold ResNet.build_config.
  assert (Hf : ResNet.is_none "head/filters"
                 (if ResNet.is_none "head/units" config
                  then Config.set "head/units" classes config else config)
               = ResNet.is_none "head/filters" config).
  { destruct (ResNet.is_none "head/units" config); [| reflexivity].
    apply is_none_set_other. discriminate. }
  rewrite Hf.
  destruct (String.eqb_spec path "head/units") as [-> | Hu].
  - cbn [orb andb].
    destruct (ResNet.is_none "head/filters" config);
      [rewrite config_set_ne by discriminate |];
      (destruct (ResNet.is_none "head/units" config);
       [apply config_set_eq | reflexivity]).
  - destruct (String.eqb_spec path "head/filters") as [-> | Hfl]; cbn [orb andb].
    + destruct (ResNet.is_none "head/filters" config) eqn:E.
      * apply config_set_eq.
      * destruct (ResNet.is_none "head/units" config);
          [apply config_set_ne; discriminate | reflexivity].
    + destruct (ResNet.is_none "head/filters" config);
        [rewrite config_set_ne by congruence |];
        (destruct (ResNet.is_none "head/units" config);
         [apply config_set_ne; congruence | reflexivity]).
Qed.

(** X13. [build_config] fills ['head/units'] and ['head/filters'] with the
    class count only where nothing, or [None], is stored: a value set
    explicitly is kept, every other path is left alone, and afterwards
    neither of the two is [None] (for a class count that is not [None]). *)
Theorem build_config_defaults (config : Config.t) (classes : pyval) :
  (forall path v,
      (path = "head/units"%string \/ path = "head/filters"%string) ->
      Config.get path config = Some v -> v <> VNone ->
      Config.get path (ResNet.build_config config classes) = Some v) /\
  (forall path,
      (path = "head/units"%string \/ path = "head/filters"%string) ->
      ResNet.is_none path config = true ->
      Config.get path (ResNet.build_config config classes) = Some classes) /\
  (forall path,
      path <> "head/units"%string -> path <> "head/filters"%string ->
      Config.get path (ResNet.build_config config classes)
        = Config.get path config) /\
  (classes <> VNone ->
   ResNet.is_none "head/units" (ResNet.build_config config classes) = false /\
   ResNet.is_none "head/filters" (ResNet.build_config config classes) = false).
Proof.
  split; [| split; [| split]].
  - intros path v Hp Hv Hnn. rewrite build_config_get.
    assert (Hn : ResNet.is_none path config = false).
    { unfold ResNet.is_none. rewrite Hv. destruct v; congruence. }
    rewrite Hn, andb_false_r. exact Hv.
  - intros path Hp Hn. rewrite build_config_get, Hn.
    destruct Hp as [-> | ->]; reflexivity.
  - intros path Hu Hf. rewrite build_config_get.
    apply String.eqb_neq in Hu, Hf. now rewrite Hu, Hf.
  - intros Hc.
    assert (Hgen : forall path,
               (path = "head/units"%string \/ path = "head/filters"%string) ->
               ResNet.is_none path (ResNet.build_config config classes) = false).
    { intros path Hp. unfold ResNet.is_none at 1. rewrite build_config_get.
      assert (Ho : (String.eqb path "head/units"
                    || String.eqb path "head/filters")%bool = true)
        by (destruct Hp as [-> | ->]; reflexivity).
      rewrite Ho. cbn [andb].
      destruct (ResNet.is_none path config) eqn:E.
      - destruct classes; congruence.
      - unfold ResNet.is_none in E.
        destruct (Config.get path config) as [[] |]; congruence. }
    split; apply Hgen; [now left | now right].
Qed.

(** X14. Building twice changes nothing more: with a class count that is
    not [None], a second [build_config], even with another class count,
    returns the configuration of the first. *)
Theorem build_config_idempotent (config : Config.t) (classes classes' : pyval) :
  classes <> VNone ->
  ResNet.build_config (ResNet.build_config config classes) classes'
    = ResNet.build_config config classes.
Proof.
  intros Hc. apply map_eq. intros path.
  change (Config.get path
            (ResNet.build_config (ResNet.build_config config classes) classes')
          = Config.get path (ResNet.build_config config classes)).
  rewrite (build_config_get (ResNet.build_config config classes)).
  destruct ((String.eqb path "head/units" || String.eqb path "head/filters")%bool)
    eqn:Ho; cbn [andb]; [| reflexivity].
  assert (Hn : ResNet.is_none path (ResNet.build_config config classes) = false).
  { unfold ResNet.is_none at 1. rewrite build_config_get, Ho. cbn [andb].
    destruct (ResNet.is_none path config) eqn:E.
    - destruct classes; congruence.
    - unfold ResNet.is_none in E.
      destruct (Config.get path config) as [[] |]; congruence. }
  now rewrite Hn.
Qed.

(** * Further properties of DropBlock *)

(** ** Shapes *)

Section Shapes.
Import DropBlock.

Lemma skipn_all_but_last (n : Z) (rest : list Z) :
  rest <> [] -> skipn (length rest) (n :: rest) = [List.last rest n].
Proof.
  revert n. induction rest as [| y rest IH]; intros n Hne; [congruence |].
  destruct rest as [| z rest]; [reflexivity |].
  change (skipn (length (y :: z :: rest)) (n :: y :: z :: rest))
    with (skipn (length (z :: rest)) (y :: z :: rest)).
  rewrite IH by discriminate.
  change (List.last (y :: z :: rest) n) with (List.last (z :: rest) n).
  f_equal. now rewrite !last_cons_default.
Qed.

(** An input of rank at least 2 is a batch extent, the spatial extents and
    one channel extent, in the order of the data format. *)
Lemma dims_split (sh : list Z) (data_format : string) :
  (2 <= length sh)%nat ->
  exists n c,
    channels sh data_format = [c] /\
    sh = (if channels_first data_format
          then [n; c] ++ spatial_dims sh data_format
          else [n] ++ spatial_dims sh data_format ++ [c]).
Proof.
  intros Hlen. destruct sh as [| n [| c rest]]; simpl in Hlen; try lia.
  unfold channels, spatial_dims. destruct (channels_first data_format).
  - exists n, c. split; reflexivity.
  - exists n, (List.last (c :: rest) n). split.
    + change (length (n :: c :: rest) - 1)%nat with (S (length (c :: rest)) - 1)%nat.
      replace (S (length (c :: rest)) - 1)%nat with (length (c :: rest)) by lia.
      apply skipn_all_but_last. discriminate.
    + change (skipn 1 (n :: c :: rest)) with (c :: rest).
      change ([n] ++ removelast (c :: rest) ++ [List.last (c :: rest) n])
        with (n :: (removelast (c :: rest) ++ [List.last (c :: rest) n])).
      f_equal. apply app_removelast_last. discriminate.
Qed.

Lemma pad_restores_extent (sd bs : list Z) :
  length bs = length sd ->
  zip_with (fun d p => fst p + d + snd p)
           (zip_with (fun d e => d - e + 1) sd bs)
           (map (fun e => ((e - 1) / 2, e - 1 - (e - 1) / 2)) bs)
  = sd.
Proof.
  revert bs. induction sd as [| d sd IH]; intros [| e bs] Hlen;
    simpl in *; try lia; [reflexivity |].
  f_equal; [lia | apply IH; lia].
Qed.

Lemma pool_unit_stride_extent (sd pool : list Z) :
  length pool = length sd ->
  zip_with pool_out sd (combine pool (repeat 1 (length sd))) = sd.
Proof.
  revert pool. induction sd as [| d sd IH]; intros [| k pool] Hlen;
    simpl in *; try lia; [reflexivity |].
  f_equal; [| apply IH; lia].
  unfold pool_out. simpl. rewrite Z.div_1_r. lia.
Qed.

Lemma zip_max_same (l : list Z) : zip_with Z.max l l = l.
Proof.
  induction l as [| x l IH]; simpl; [reflexivity |].
  rewrite IH. f_equal. lia.
Qed.

Lemma plan_sampling_shape (inputs : tensor) (dropout_rate : float32)
    (block_size : block_size_t) (data_format : string) (p : plan) :
  make_plan inputs dropout_rate block_size data_format = Ok p ->
  p_sampling_mask_shape p
  = (if channels_first data_format
     then [1] ++ channels (shape inputs) data_format ++ p_inner_area p
     else [1] ++ p_inner_area p ++ channels (shape inputs) data_format).
Proof.
  unfold make_plan. intros Hp. bind_inv Hp. injection Hp as <-. reflexivity.
Qed.

(** The kept mask has batch extent 1 and otherwise the extents of the
    input, whatever the block size. *)
Lemma kept_mask_shape (inputs : tensor) (dropout_rate : float32)
    (block_size : block_size_t) (data_format : string) (p : plan)
    (noise : list Z -> float32) :
  (2 <= length (shape inputs))%nat ->
  make_plan inputs dropout_rate block_size data_format = Ok p ->
  shape (kept_mask p {| shape := p_sampling_mask_shape p; at_ := noise |}
                   data_format)
  = 1 :: tl (shape inputs).
Proof.
  intros Hrank Hp.
  destruct (dims_split _ data_format Hrank) as (n & c & Hch & Hsh).
  pose proof (plan_sampling_shape _ _ _ _ _ Hp) as Hss.
  destruct (plan_block_sizes _ _ _ _ _ Hp)
    as (req & Hreq & Hlen & Etf & _ & Eia & _ & Epad & Epool).
  destruct (make_plan_inv _ _ _ _ _ Hp) as (_ & _ & _ & _ & _ & _ & _ & Estr).
  assert (Hbs : length (p_block_size_tf p)
                = length (spatial_dims (shape inputs) data_format)).
  { rewrite Etf, length_zip_with. lia. }
  assert (Hia : length (p_inner_area p)
                = length (spatial_dims (shape inputs) data_format)).
  { rewrite Eia, length_zip_with. lia. }
  unfold kept_mask, one_minus, max_pooling, tf_pad, pool_windows.
  cbn [shape]. rewrite Hss, Epad, Epool, Estr, Hch, Eia.
  remember (spatial_dims (shape inputs) data_format) as sd eqn:Esd.
  rewrite Hsh. clear Hsh Esd.
  destruct (channels_first data_format).
  - cbn [app zip_with fst snd tl]. rewrite pad_restores_extent by exact Hbs.
    rewrite pool_unit_stride_extent by exact Hlen.
    unfold pool_out. cbn [fst snd]. rewrite !Z.div_1_r.
    replace (0 + 1 + 0 + 1 - 1) with 1 by lia.
    replace (0 + c + 0 + 1 - 1) with c by lia. reflexivity.
  - cbn [app zip_with fst snd tl].
    rewrite zip_with_app
      by (rewrite length_zip_with, length_map; lia).
    rewrite pad_restores_extent by exact Hbs.
    cbn [zip_with fst snd].
    rewrite zip_with_app
      by (rewrite length_combine, repeat_length; lia).
    rewrite pool_unit_stride_extent by exact Hlen.
    cbn [zip_with]. unfold pool_out. cbn [fst snd]. rewrite !Z.div_1_r.
    replace (0 + 1 + 0 + 1 - 1) with 1 by lia.
    replace (0 + c + 0 + 1 - 1) with c by lia. reflexivity.
Qed.

End Shapes.

Section Inactive.
Import DropBlock.
Context (noise : list Z -> float32).
Context (inputs : tensor) (dropout_rate : float32) (block_size : block_size_t).
Context (is_training : bool) (data_format : string) (seed : option Z).

Lemma dropblock_inactive_graph :
  inactive dropout_rate is_training = true ->
  dropblock GraphMode noise inputs dropout_rate block_size is_training
            data_format seed
  = match resolve_block_size block_size
            (length (spatial_dims (shape inputs) data_format)) with
    | Ok _ => Ok (ret inputs)
    | Raise e => Raise e
    end.
Proof.
  intros Hi. unfold dropblock, tf_cond, _dropblock, make_plan. rewrite Hi.
  destruct (resolve_block_size _ _); reflexivity.
Qed.


Lemma run_dropblock_inactive (mode : exec_mode) (out : tensor) (log : list draw) :
  inactive dropout_rate is_training = true ->
  run (dropblock mode noise inputs dropout_rate block_size is_training
                 data_format seed) = Ok (out, log) ->
  out = inputs /\ log = [].
Proof.
  intros Hi Hr. destruct mode.
  - rewrite (dropblock_inactive_graph Hi) in Hr.
    destruct (resolve_block_size _ _); [| discriminate Hr].
    injection Hr as <- <-. now split.
  - unfold dropblock, tf_cond in Hr. rewrite Hi in Hr.
    injection Hr as <- <-. now split.
Qed.

End Inactive.

Section OutputShape.
Import DropBlock.
Context (mode : exec_mode) (noise : list Z -> float32).
Context (inputs : tensor) (dropout_rate : float32) (block_size : block_size_t).
Context (is_training : bool) (data_format : string) (seed : option Z).

(** X16. For an input of rank at least 2 with a batch extent of at least
    1, the output of [dropblock] has the shape of the input, active or not
    and whatever the block size: the padding by [block_size - 1] gives the
    seed grid the spatial extents of the input back, and the pooling with
    stride 1 keeps them. *)
Theorem dropblock_keeps_shape (out : tensor) (log : list draw) :
  (2 <= length (shape inputs))%nat ->
  1 <= hd 1 (shape inputs) ->
  run (dropblock mode noise inputs dropout_rate block_size is_training
                 data_format seed) = Ok (out, log) ->
  shape out = shape inputs.
Proof.
  intros Hrank Hbatch Hr.
  destruct (inactive dropout_rate is_training) eqn:Hi.
  - destruct (run_dropblock_inactive noise inputs dropout_rate block_size
                is_training data_format seed mode out log Hi Hr) as (-> & _).
    reflexivity.
  - destruct (run_dropblock_active mode noise inputs dropout_rate block_size
                is_training data_format seed out log Hi Hr)
      as (p & Hp & _ & ->).
    unfold apply_mask, rescale, tf_multiply. cbn [shape].
    rewrite (kept_mask_shape _ _ _ _ _ noise Hrank Hp).
    destruct (shape inputs) as [| n rest]; [simpl in Hrank; lia |].
    simpl in Hbatch. cbn [tl zip_with]. rewrite zip_max_same.
    f_equal. lia.
Qed.

Lemma bcast_in_bounds (sh idx : list Z) :
  in_bounds sh idx = true -> bcast_index sh idx = idx.
Proof.
  unfold in_bounds, bcast_index. rewrite andb_true_iff. intros (Hlen & Hall).
  apply Nat.eqb_eq in Hlen.
  revert idx Hlen Hall. induction sh as [| d sh IH]; intros [| i idx] Hlen Hall;
    simpl in *; try lia; [reflexivity |].
  apply andb_true_iff in Hall. destruct Hall as (Hi & Hall).
  rewrite IH by (assumption || lia).
  destruct (d =? 1) eqn:Hd; [| reflexivity].
  apply Z.eqb_eq in Hd. f_equal. lia.
Qed.

(** X17. The mask is shared by the batch: for an input of rank at least 2,
    the output element at batch position [b] is the input element there
    times the element of the one kept mask at batch position 0 (then
    rescaled), so every item of the batch is masked at the same places. *)
Theorem mask_shared_across_batch (out : tensor) (log : list draw) :
  (2 <= length (shape inputs))%nat ->
  inactive dropout_rate is_training = false ->
  run (dropblock mode noise inputs dropout_rate block_size is_training
                 data_format seed) = Ok (out, log) ->
  exists mask : tensor,
    shape mask = 1 :: tl (shape inputs) /\
    forall (b : Z) (rest : list Z),
      in_bounds (shape inputs) (b :: rest) = true ->
      at_ out (b :: rest)
      = fdiv (fmul (fmul (at_ inputs (b :: rest)) (at_ mask (0 :: rest)))
                   (to_float (tf_size mask)))
             (reduce_sum mask).
Proof.
  intros Hrank Hi Hr.
  destruct (run_dropblock_active mode noise inputs dropout_rate block_size
              is_training data_format seed out log Hi Hr)
    as (p & Hp & _ & ->).
  pose proof (kept_mask_shape _ _ _ _ _ noise Hrank Hp) as Hshape.
  eexists. split; [exact Hshape |].
  intros b rest Hin.
  unfold apply_mask, rescale, tf_multiply. cbn [at_].
  rewrite Hshape, (bcast_in_bounds _ _ Hin).
  destruct (shape inputs) as [| n sh]; [simpl in Hrank; lia |].
  cbn [tl]. unfold bcast_index at 1. cbn [zip_with]. 
  change (1 =? 1) with true. cbn iota.
  assert (Hrest : in_bounds sh rest = true).
  { unfold in_bounds in Hin |- *. simpl in Hin.
    apply andb_true_iff in Hin. destruct Hin as (Hlen & Hall).
    apply andb_true_iff in Hall. destruct Hall as (_ & Hall).
    now rewrite Hlen, Hall. }
  pose proof (bcast_in_bounds _ _ Hrest) as Hb. unfold bcast_index in Hb.
  now rewrite Hb.
Qed.

End OutputShape.

(** ** Block sizes, paddings and the sampling probability *)

Section PlanFacts.
Import DropBlock.
Context (inputs : tensor) (dropout_rate : float32) (block_size : block_size_t).
Context (data_format : string).

(** X18. Whatever is requested, every effective block size [e] is at least
    1, and the zero padding of its dimension adds exactly [e - 1] entries,
    split evenly with the odd one on the right. *)
Theorem padding_split (p : plan) (i : nat) (e : Z) :
  make_plan inputs dropout_rate block_size data_format = Ok p ->
  p_block_size_tf p !! i = Some e ->
  1 <= e /\
  exists l r,
    p_pad_shape p !! ((if channels_first data_format then 2 else 1) + i)%nat
      = Some (l, r) /\
    l + r = e - 1 /\ 0 <= l <= r /\ r <= l + 1.
Proof.
  intros Hp He.
  destruct (plan_block_sizes _ _ _ _ _ Hp)
    as (req & _ & _ & Etf & _ & _ & _ & Epad & _).
  assert (H1 : 1 <= e).
  { rewrite Etf, lookup_zip_with in He.
    destruct (req !! i) as [b |]; [| discriminate He].
    destruct (spatial_dims (shape inputs) data_format !! i) as [d |];
      [| discriminate He].
    simpl in He. injection He as <-. lia. }
  split; [exact H1 |].
  exists ((e - 1) / 2), (e - 1 - (e - 1) / 2).
  split.
  - rewrite Epad. destruct (channels_first data_format); cbn [app Nat.add];
      [| rewrite lookup_cons; cbn [Nat.add]; rewrite lookup_app_l
           by (rewrite length_map; apply lookup_lt_Some in He; exact He)];
      try (rewrite !lookup_cons; cbn iota);
      rewrite list_lookup_fmap, He; reflexivity.
  - pose proof (Z.div_mod (e - 1) 2 ltac:(lia)) as Hdm.
    pose proof (Z.mod_pos_bound (e - 1) 2 ltac:(lia)) as Hm.
    lia.
Qed.

End PlanFacts.

Section GammaBound.
Import DropBlock.

(** Per dimension [d <= e * (d - e + 1)] for [1 <= e <= d]; so the product
    of the extents is at most that of the block sizes times that of the
    inner areas. *)
Lemma extents_below_blocks_times_areas (sd req : list Z) :
  length req = length sd ->
  Forall (fun d => 1 <= d) sd ->
  let bs := zip_with (fun b d => Z.max (Z.min b d) 1) req sd in
  let ia := zip_with (fun d e => d - e + 1) sd bs in
  1 <= fold_right Z.mul 1 bs /\
  1 <= fold_right Z.mul 1 ia /\
  1 <= fold_right Z.mul 1 sd <= fold_right Z.mul 1 bs * fold_right Z.mul 1 ia.
Proof.
  revert req. induction sd as [| d sd IH]; intros [| b req] Hlen Hpos;
    simpl in Hlen; try lia.
  - simpl. lia.
  - inversion Hpos as [| ? ? Hd Hrest]; subst.
    specialize (IH req ltac:(lia) Hrest). cbn zeta in IH |- *.
    cbn [zip_with fold_right].
    set (e := Z.max (Z.min b d) 1).
    set (B := fold_right Z.mul 1 (zip_with (fun b d => Z.max (Z.min b d) 1) req sd)) in *.
    set (I := fold_right Z.mul 1
                (zip_with (fun d e => d - e + 1) sd
                   (zip_with (fun b d => Z.max (Z.min b d) 1) req sd))) in *.
    set (P := fold_right Z.mul 1 sd) in *.
    assert (He : 1 <= e <= d) by (unfold e; lia).
    assert (Hde : d <= e * (d - e + 1)) by nia.
    destruct IH as (HB & HI & HP1 & HP).
    repeat split; nia.
Qed.

(** X20. On extents of at least 1, whatever block size is requested,
    every inner area lies between 1 and the extent of its dimension, so
    none of the three products that enter the sampling probability is below
    1; and the product of the extents is at most the product of the
    effective block sizes times the product of the inner areas. This is a
    statement about the integers of lines 67-73, not about the float32
    quotient made of them. *)
Theorem inner_area_bounds (inputs : tensor) (dropout_rate : float32)
    (block_size : block_size_t) (data_format : string) (p : plan) :
  Forall (fun d => 1 <= d) (spatial_dims (shape inputs) data_format) ->
  make_plan inputs dropout_rate block_size data_format = Ok p ->
  (forall (i : nat) (a : Z),
      p_inner_area p !! i = Some a ->
      exists d e,
        spatial_dims (shape inputs) data_format !! i = Some d /\
        p_block_size_tf p !! i = Some e /\
        a = d - e + 1 /\ 1 <= a <= d) /\
  1 <= fold_right Z.mul 1 (p_block_size_tf p) /\
  1 <= fold_right Z.mul 1 (p_inner_area p) /\
  1 <= fold_right Z.mul 1 (spatial_dims (shape inputs) data_format)
    <= fold_right Z.mul 1 (p_block_size_tf p)
       * fold_right Z.mul 1 (p_inner_area p).
Proof.
  intros Hpos Hp.
  destruct (plan_block_sizes _ _ _ _ _ Hp)
    as (req & _ & Hlen & Etf & Hclamp & Eia & _).
  pose proof (extents_below_blocks_times_areas _ _ Hlen Hpos) as Hprod.
  cbn zeta in Hprod. rewrite <- Etf, <- Eia in Hprod.
  split; [| exact Hprod].
  intros i a Ha. rewrite Eia, lookup_zip_with in Ha.
  destruct (spatial_dims (shape inputs) data_format !! i) as [d |] eqn:Ed;
    [| discriminate Ha].
  destruct (p_block_size_tf p !! i) as [e |] eqn:Ee; [| discriminate Ha].
  simpl in Ha. injection Ha as <-.
  assert (Hd : 1 <= d) by (rewrite Forall_lookup in Hpos; exact (Hpos i d Ed)).
  assert (Hb : exists b, req !! i = Some b).
  { apply lookup_lt_is_Some. rewrite Hlen. now apply lookup_lt_Some in Ed. }
  destruct Hb as (b & Hb).
  destruct (Hclamp i b d Hb Ed Hd) as (e' & He' & Hrange & _).
  rewrite Ee in He'. injection He' as <-.
  exists d, e. repeat split; lia.
Qed.

End GammaBound.

(** ** A draw without seed points *)

Section NoSeed.
Import DropBlock.




Context (mode : exec_mode) (noise : list Z -> float32).
Context (inputs : tensor) (dropout_rate : float32) (block_size : block_size_t).
Context (is_training : bool) (data_format : string) (seed : option Z).


End NoSeed.

(** ** Concrete instances of the further properties *)

Lemma no_convolution_raises_witness :
  num_convs (ResBlock.layout norm_only_block) = 0%nat /\
  ResBlock.filters norm_only_block = FiltersVal (PInt 64) /\
  ResBlock.__init__ norm_only_block = Raise IndexError.
Proof.
  split; [reflexivity |]. split; [reflexivity |].
  exact (no_convolution_raises norm_only_block 64 eq_refl eq_refl).
Defined.

Lemma side_branch_matches_main_path_witness :
  exists c,
    ResBlock.__init__ two_filter_bottleneck = Ok c /\
    ResBlock.sb_layout (ResBlock.cb_side_branch c) = "c"%string /\
    ResBlock.cb_filters c <> [] /\
    ResBlock.sb_filters (ResBlock.cb_side_branch c)
      = List.last (ResBlock.cb_filters c) 0 /\
    ResBlock.sb_strides (ResBlock.cb_side_branch c)
      = np_prod (ResBlock.cb_strides c).
Proof.
  eexists. split; [reflexivity |].
  exact (side_branch_matches_main_path two_filter_bottleneck _ eq_refl).
Defined.

Lemma first_repetition_side_branch_witness :
  - 2 ^ 63 <= fold_right Z.mul 1 [1; 1] < 2 ^ 63 /\
  exists c,
    ResBlock.__init__ downsampled_stage = Ok c /\
    exists ss,
      ResBlock.rep_strides c 0 = Some ss /\
      ResBlock.rep_side_branch_strides c 0 = Some (fold_right Z.mul 1 ss).
Proof.
  split; [simpl; lia |].
  eexists. split; [reflexivity |].
  apply (first_repetition_side_branch downsampled_stage);
    [simpl; lia | reflexivity].
Defined.

Lemma no_downsample_repetitions_alike_witness :
  truthy (ResBlock.downsample zero_reps_block) = false /\
  exists c,
    ResBlock.__init__ zero_reps_block = Ok c /\
    forall i : nat,
      (i < length (ResBlock.cb_layer_params c))%nat ->
      ResBlock.rep_strides c i = Some [2; 1] /\
      ResBlock.rep_side_branch_strides c i = Some 2.
Proof.
  split; [reflexivity |].
  eexists. split; [reflexivity |].
  exact (no_downsample_repetitions_alike zero_reps_block _ eq_refl eq_refl).
Defined.

Lemma repetitions_count_witness :
  ResBlock.n_reps zero_reps_block = 0 /\
  exists c,
    ResBlock.__init__ zero_reps_block = Ok c /\
    length (ResBlock.cb_layer_params c) = 1%nat.
Proof.
  split; [reflexivity |].
  eexists. split; [reflexivity |].
  exact (repetitions_count zero_reps_block _ eq_refl).
Defined.

Lemma bottleneck_convolutions_plain_witness :
  truthy (ResBlock.bottleneck downsampled_stage) = true /\
  exists c,
    ResBlock.__init__ downsampled_stage = Ok c /\
    ResBlock.cb_layout c = "Bcnacnacnacna+"%string /\
    ResBlock.cb_kernel_size c = [1; 3; 3; 1] /\
    ResBlock.cb_strides c = [1; 1; 1; 1] /\
    ResBlock.cb_groups c = [PInt 1; PInt 32; PInt 32; PInt 1] /\
    exists sd,
      length sd = 2%nat /\
      ResBlock.rep_strides c 0 = Some ([1] ++ sd ++ [1]).
Proof.
  split; [reflexivity |].
  eexists. split; [reflexivity |].
  exact (bottleneck_convolutions_plain downsampled_stage _ eq_refl eq_refl).
Defined.

Lemma call_lists_match_layout_witness :
  ResBlock.eval_filters downsampled_stage = Ok (PInt 64) /\
  ResBlock.fits (PInt 64) (num_convs "cnacna") = true /\
  ResBlock.fits (PInt 3) (num_convs "cnacna") = true /\
  ResBlock.fits (PInt 1) (num_convs "cnacna") = true /\
  num_convs "+" = 0%nat /\
  exists c,
    ResBlock.__init__ downsampled_stage = Ok c /\
    length (ResBlock.cb_filters c) = 4%nat /\
    length (ResBlock.cb_kernel_size c) = 4%nat /\
    length (ResBlock.cb_strides c) = 4%nat /\
    length (ResBlock.cb_groups c) = 4%nat /\
    exists sd, ResBlock.rep_strides c 0 = Some sd /\ length sd = 4%nat.
Proof.
  do 5 (split; [reflexivity |]).
  eexists. split; [reflexivity |].
  exact (call_lists_match_layout downsampled_stage (PInt 64) _
           eq_refl eq_refl eq_refl eq_refl eq_refl eq_refl).
Defined.

Lemma init_ok_iff_witness :
  ResBlock.filters downsample_block = FiltersVal (PInt 64) /\
  exists c, ResBlock.__init__ downsample_block = Ok c.
Proof.
  split; [reflexivity |].
  apply (init_ok_iff downsample_block (PInt 64) eq_refl).
  split; [discriminate | intros _; discriminate].
Defined.

Lemma unwritten_paths_inherited_witness :
  ResNet.untouched "head/units" = true /\
  Config.get "head/units"
    (ResNeXt152.default_config (Config.set "head/units" (VInt 10) ∅))
  = Some (VInt 10).
Proof.
  split; [reflexivity |].
  pose proof (unwritten_paths_inherited
                (Config.set "head/units" (VInt 10) ∅) "head/units" eq_refl)
    as Hall.
  rewrite Forall_lookup in Hall.
  rewrite (Hall 10%nat ResNeXt152.default_config eq_refl).
  apply config_set_eq.
Defined.

Lemma build_config_idempotent_witness :
  VInt 10 <> VNone /\
  ResNet.build_config (ResNet.build_config ∅ (VInt 10)) (VInt 1000)
    = ResNet.build_config ∅ (VInt 10).
Proof.
  split; [discriminate |].
  apply build_config_idempotent. discriminate.
Defined.


Lemma dropblock_keeps_shape_witness :
  (2 <= length (DropBlock.shape DropBlock.twos_2x4x5x3))%nat /\
  1 <= hd 1 (DropBlock.shape DropBlock.twos_2x4x5x3) /\
  exists out log,
    DropBlock.run
      (DropBlock.dropblock DropBlock.GraphMode DropBlock.every_seed
         DropBlock.twos_2x4x5x3 (DropBlock.Finite (1 # 4))
         (DropBlock.BSTuple [2; 7]) true "channels_last" (Some 5))
    = Ok (out, log) /\
    DropBlock.shape out = [2; 4; 5; 3].
Proof.
  split; [simpl; lia |]. split; [simpl; lia |].
  eexists. eexists. split; [reflexivity |].
  eapply (dropblock_keeps_shape DropBlock.GraphMode DropBlock.every_seed
            DropBlock.twos_2x4x5x3 (DropBlock.Finite (1 # 4))
            (DropBlock.BSTuple [2; 7]) true "channels_last" (Some 5));
    [simpl; lia | simpl; lia | reflexivity].
Defined.

Lemma mask_shared_across_batch_witness :
  (2 <= length (DropBlock.shape DropBlock.twos_2x4x5x3))%nat /\
  DropBlock.inactive (DropBlock.Finite (1 # 4)) true = false /\
  exists out log mask,
    DropBlock.run
      (DropBlock.dropblock DropBlock.GraphMode DropBlock.every_seed
         DropBlock.twos_2x4x5x3 (DropBlock.Finite (1 # 4))
         (DropBlock.BSTuple [2; 7]) true "channels_last" (Some 5))
    = Ok (out, log) /\
    DropBlock.shape mask = [1; 4; 5; 3] /\
    DropBlock.at_ out [1; 2; 3; 0]
    = DropBlock.fdiv
        (DropBlock.fmul
           (DropBlock.fmul (DropBlock.Finite 2) (DropBlock.at_ mask [0; 2; 3; 0]))
           (DropBlock.to_float (DropBlock.tf_size mask)))
        (DropBlock.reduce_sum mask).
Proof.
  split; [simpl; lia |]. split; [reflexivity |].
  eexists. eexists.
  destruct (mask_shared_across_batch DropBlock.GraphMode DropBlock.every_seed
              DropBlock.twos_2x4x5x3 (DropBlock.Finite (1 # 4))
              (DropBlock.BSTuple [2; 7]) true "channels_last" (Some 5) _ _
              ltac:(simpl; lia) eq_refl eq_refl)
    as (mask & Hshape & Hat).
  exists mask. split; [reflexivity |]. split; [exact Hshape |].
  exact (Hat 1 [2; 3; 0] eq_refl).
Defined.

Lemma padding_split_witness :
  exists p,
    DropBlock.make_plan DropBlock.twos_2x4x5x3 (DropBlock.Finite (1 # 4))
      (DropBlock.BSTuple [2; 7]) "channels_last" = Ok p /\
    DropBlock.p_block_size_tf p !! 0%nat = Some 2 /\
    1 <= 2 /\
    exists l r,
      DropBlock.p_pad_shape p !! 1%nat = Some (l, r) /\
      l + r = 2 - 1 /\ 0 <= l <= r /\ r <= l + 1.
Proof.
  eexists. split; [reflexivity |]. split; [reflexivity |].
  exact (padding_split DropBlock.twos_2x4x5x3 (DropBlock.Finite (1 # 4))
           (DropBlock.BSTuple [2; 7]) "channels_last" _ 0%nat 2
           eq_refl eq_refl).
Defined.

Lemma inner_area_bounds_witness :
  Forall (fun d => 1 <= d)
    (DropBlock.spatial_dims (DropBlock.shape DropBlock.twos_2x4x5x3)
       "channels_last") /\
  exists p,
    DropBlock.make_plan DropBlock.twos_2x4x5x3 (DropBlock.Finite (1 # 4))
      (DropBlock.BSTuple [2; 7]) "channels_last" = Ok p /\
    DropBlock.p_inner_area p = [3; 1] /\
    1 <= fold_right Z.mul 1 (DropBlock.p_inner_area p) /\
    fold_right Z.mul 1 [4; 5]
      <= fold_right Z.mul 1 (DropBlock.p_block_size_tf p)
         * fold_right Z.mul 1 (DropBlock.p_inner_area p).
Proof.
  assert (Hpos : Forall (fun d => 1 <= d)
            (DropBlock.spatial_dims (DropBlock.shape DropBlock.twos_2x4x5x3)
               "channels_last"))
    by (repeat constructor; lia).
  split; [exact Hpos |].
  eexists. split; [reflexivity |]. split; [reflexivity |].
  destruct (inner_area_bounds DropBlock.twos_2x4x5x3 (DropBlock.Finite (1 # 4))
              (DropBlock.BSTuple [2; 7]) "channels_last" _ Hpos eq_refl)
    as (_ & _ & Hia & _ & Hprod).
  split; [exact Hia | exact Hprod].
Defined.

